(** * InsightsMania: the question-to-insight turn of [app.py]

    A shallow embedding of the four functions of [app.py]
    ([get_sql_query], [get_sql_results], [generate_insights], [main]) and
    the properties of one user turn: which collaborator is called, with
    which arguments, in which order, and what is left in the session
    history.

    The three collaborators of the script are not part of it and are taken
    as parameters: the generative model ([model.generate_content]), the
    SQLite driver ([sqlite3.connect], [cursor.execute], [conn.close]) and
    Python's [str] on a
    list of tuples.  Calls to them and to the Streamlit surface are logged
    as an ordered list of events; exceptions are explicit results. *)

From Stdlib Require Import String Ascii List ZArith Bool Lia.
From Stdlib Require Import Sorting.Permutation.
Import ListNotations.

Local Open Scope string_scope.
Local Open Scope list_scope.

(* [++] is list concatenation; on strings it is written [(_ ++ _)%string]. *)

(** ** Data *)

(** A value of a result row, as Python's [sqlite3] hands it over: [None],
    [int], [float] (kept as its IEEE-754 binary64 bit pattern, the script
    never computes with it), [str] or [bytes]. *)
Inductive Scalar : Type :=
| SqlNull
| SqlInteger (z : Z)
| SqlReal (bits : Z)
| SqlText (s : string)
| SqlBlob (b : list ascii).

(** A row is a tuple of scalars; [List[Tuple]] is a list of rows. *)
Definition Row : Type := list Scalar.

(** An entry of [st.session_state.messages]: a dict with the two keys
    ["role"] and ["content"]. *)
Record Message : Type := mkMessage { role : string; content : string }.

(** Exceptions the script can meet.  None of them is caught anywhere in
    [app.py]. *)
Inductive Exn : Type :=
| DatabaseError (driver_message : string)
| GenerationError (client_message : string)
| UnboundLocalError (name : string)
| AttributeError (name : string).

Inductive Result (A : Type) : Type :=
| Ok (a : A)
| Raise (e : Exn).
Arguments Ok {A} a.
Arguments Raise {A} e.

(** What [cursor.execute] gives back: it raises, or it returns a cursor.
    Iterating the cursor yields [fetched] in order and then either stops
    or raises [fault] (SQLite steps the statement lazily). *)
Record Cursor : Type := mkCursor { fetched : list Row; fault : option string }.

Inductive ExecOutcome : Type :=
| ExecRaises (driver_message : string)
| ExecCursor (c : Cursor).

(** What [model.generate_content(...).text] gives back. *)
Inductive LlmOutcome : Type :=
| LlmText (text : string)
| LlmRaises (client_message : string).

(** Calls that leave the script, in the order they are made.  A call of
    [sqlite3.connect] is [SqliteConnect] when it returns a connection and
    [SqliteConnectFailed] when it raises. *)
Inductive Event : Type :=
| StSetPageConfig (page_title layout : string)
| StTitle (body : string)
| StChatInput (placeholder : string)
| StChatMessageEnter (name : string)
| StChatMessageExit (name : string)
| StMarkdown (body : string)
| StCode (body language : string)
| StDataframe (data : list Row)
| StError (body : string)
| StWarning (body : string)
| StSuccess (body : string)
| GenerateContent (contents : list string)
| SqliteConnect (database : string)
| SqliteConnectFailed (database : string)
| SqliteCursor
| SqliteExecute (sql : string)
| SqliteClose.

(** ** Text constants *)

Definition dq : string := String (ascii_of_nat 34) EmptyString.
Definition nl : string := String (ascii_of_nat 10) EmptyString.

(** [unlines ls] writes every line followed by a newline. *)
Fixpoint unlines (ls : list string) : string :=
  match ls with
  | [] => EmptyString
  | l :: rest => (l ++ nl ++ unlines rest)%string
  end.

(** Lines 21-73: the instruction text before the quoted request. *)
Definition sql_prompt_head : list string :=
  [ "    You are a highly skilled Marketing Analytics Assistant.";
    "";
    "    Your job is to translate natural language business questions from marketing analysts into optimized SQL queries that retrieve actionable insights from a SQLite database.";
    "";
    "    📊 The insights may involve:";
    "    - Retrieving existing metrics like ROAS, CTR, CPC, CPA";
    "    - Grouping data by platform, campaign, hour, or ad type";
    "    - Filtering by date, platform, segment, or SKU";
    "    - Generating derived metrics using basic formulas, such as:";
    "        - ROAS = revenue / spend";
    "        - CTR = (clicks / impressions) * 100";
    "        - CPC = spend / clicks";
    "        - CPA = spend / conversions";
    "        - CPM = (spend / impressions) * 1000";
    "";
    "    You must ONLY use fields and datatypes from the schema below and derive metrics using them. NEVER assume the existence of any field not listed.";
    "";
    "    🗂 Table schema:";
    "";
    "    CREATE TABLE customer (";
    "        customer_id VARCHAR(20),";
    "        platform VARCHAR(20),";
    "        segment VARCHAR(20),";
    "        SKU VARCHAR(50),";
    "        hour INT,";
    "        date DATE,";
    "        ROAS FLOAT,";
    "        CTR FLOAT,";
    "        CPC FLOAT,";
    "        CPM FLOAT,";
    "        CPA FLOAT,";
    "        impressions INT,";
    "        clicks FLOAT,";
    "        conversions FLOAT,";
    "        spend FLOAT,";
    "        revenue FLOAT,";
    "        ad_name VARCHAR(100),";
    "        ad_type VARCHAR(20),";
    "        campaign_id VARCHAR(50)";
    "    );";
    "";
    "    📌 Guidelines:";
    "    - Use **only** fields in the schema.";
    "    - Return **only** a valid SQLite SQL query in the plain text format without any ``` or quotations.";
    "    - If an insight can be computed from existing fields (e.g., custom ROI or cost efficiency), derive it correctly.";
    "    - NEVER hallucinate table names or column names.";
    "    - String and date values must be wrapped in single quotes.";
    "    - Use `AS` to name computed columns clearly (e.g., `spend / conversions AS CPA`).";
    "    - NEVER return anything other than the SQL query.";
    ("    - More importantly, if the query is invalid, return " ++ dq ++ "INVALID QUERY" ++ dq ++ ".")%string;
    ("    - If the query is valid but does not return any results, return " ++ dq ++ "NO RESULTS" ++ dq ++ ".")%string;
    "    - If the query is valid and returns results, return the SQL query.";
    "    🗣 Natural Language Request:" ].

(** Lines 99-119: the instruction text before the three interpolations. *)
Definition insight_prompt_head : list string :=
  [ "    You are a senior marketing analyst assistant.";
    "";
    "    Your role is to interpret the output of SQL queries run on advertising data. The result represents marketing KPIs (such as ROAS, CTR, CPC, CPA, spend, revenue, conversions, impressions) from the `customer` table of a SQLite database.";
    "";
    "    Your task:";
    "    - Analyze the tuple of results given to you.";
    "    - Provide clear, concise, and actionable **marketing insights** in plain English.";
    "    - Focus on what the numbers *mean* — e.g., which platform performed best, any efficiency issues, anomalies, or optimization opportunities.";
    "";
    "    DO:";
    "    - Highlight top-performing platforms, campaigns, or ad types.";
    "    - Mention underperformers or efficiency concerns (e.g., high CPA or low ROAS).";
    "    - Suggest what action a marketer might consider next (e.g., scale, pause, test creatives).";
    "    - Mention derived metrics like conversion rate, ROAS improvements, etc., if possible.";
    "";
    "    DON’T:";
    "    - Repeat raw numbers unless it's meaningful.";
    "    - Include SQL or technical explanations.";
    "    - Hallucinate metrics not present in the result.";
    "";
    "    Here is the user's query based on which the below SQL output has been generated:" ].

(** ** Collaborators *)

(** The parts of the process that are not [app.py]: the driver with its
    [connect], [execute] and [close], the generative model with
    [generate_content(...).text], and [str] on a list of rows (what the
    f-string of [generate_insights] applies to [results]).

    [Store] is all the answers of the driver depend on: the file
    [customer.db] and what SQL reads besides the file (the random source,
    the clock).  [file_of] is the part of it that is the file as it lies
    on disk: its content and whether it can be opened.  [sqlite_connect]
    gives the
    message of the exception when the file cannot be opened; an absent
    file is an empty database.  [sqlite_close] is given the store because
    closing without a commit drops what the connection left
    uncommitted. *)
Class Collaborators : Type := {
  Store : Type;
  File : Type;
  file_of : Store -> File;
  Llm : Type;
  sqlite_connect : Store -> string -> option string;
  sqlite_execute : Store -> string -> Store * ExecOutcome;
  sqlite_close : Store -> Store;
  generate_content : Llm -> list string -> Llm * LlmOutcome;
  str_rows : list Row -> string
}.

Section Embedding.

Context {C : Collaborators}.

(** ** State and the script monad *)

(** What a run of the script can read and change: the database file, the
    model, and [st.session_state], of which only the key ["messages"] is
    used ([None]: the key is absent). *)
Record World : Type := mkWorld {
  datastore : Store;
  model : Llm;
  session_messages : option (list Message)
}.

Record Outcome (A : Type) : Type := mkOutcome {
  result : Result A;
  world : World;
  events : list Event
}.
Arguments mkOutcome {A} result world events.
Arguments result {A} o.
Arguments world {A} o.
Arguments events {A} o.

Definition M (A : Type) : Type := World -> Outcome A.

Definition ret {A : Type} (a : A) : M A :=
  fun w => mkOutcome (Ok a) w [].

Definition raise {A : Type} (e : Exn) : M A :=
  fun w => mkOutcome (Raise e) w [].

Definition bind {A B : Type} (m : M A) (k : A -> M B) : M B :=
  fun w =>
    match m w with
    | mkOutcome (Ok a) w1 ev1 =>
        match k a w1 with
        | mkOutcome r w2 ev2 => mkOutcome r w2 (ev1 ++ ev2)
        end
    | mkOutcome (Raise e) w1 ev1 => mkOutcome (Raise e) w1 ev1
    end.

Definition emit (e : Event) : M unit :=
  fun w => mkOutcome (Ok tt) w [e].

Notation "x <- c1 ;; c2" := (bind c1 (fun x => c2))
  (at level 61, c1 at next level, right associativity).
Notation "c1 ;; c2" := (bind c1 (fun _ => c2))
  (at level 61, right associativity).

(** [with st.chat_message(name): body].  The context manager is left on
    every exit of the body, also by an exception, which goes on upwards. *)
Definition with_chat_message {A : Type} (name : string) (body : M A) : M A :=
  fun w =>
    match body w with
    | mkOutcome r w1 ev =>
        mkOutcome r w1 (StChatMessageEnter name :: ev ++ [StChatMessageExit name])
    end.

(** [for x in xs: body(x)] *)
Fixpoint for_each {A : Type} (xs : list A) (body : A -> M unit) : M unit :=
  match xs with
  | [] => ret tt
  | x :: rest => body x ;; for_each rest body
  end.

(** *** [st.session_state.messages] *)

(** Lines 134-135. *)
Definition init_messages : M unit :=
  fun w =>
    match session_messages w with
    | Some _ => mkOutcome (Ok tt) w []
    | None => mkOutcome (Ok tt) (mkWorld (datastore w) (model w) (Some [])) []
    end.

Definition get_messages : M (list Message) :=
  fun w =>
    match session_messages w with
    | Some ms => mkOutcome (Ok ms) w []
    | None => mkOutcome (Raise (AttributeError "messages")) w []
    end.

(** [st.session_state.messages.append(m)] *)
Definition messages_append (m : Message) : M unit :=
  fun w =>
    match session_messages w with
    | Some ms =>
        mkOutcome (Ok tt) (mkWorld (datastore w) (model w) (Some (ms ++ [m]))) []
    | None => mkOutcome (Raise (AttributeError "messages")) w []
    end.

(** *** The model *)

(** [model.generate_content(contents).text] *)
Definition model_generate_content (contents : list string) : M string :=
  fun w =>
    match generate_content (model w) contents with
    | (l, LlmText text) =>
        mkOutcome (Ok text) (mkWorld (datastore w) l (session_messages w))
                  [GenerateContent contents]
    | (l, LlmRaises msg) =>
        mkOutcome (Raise (GenerationError msg))
                  (mkWorld (datastore w) l (session_messages w))
                  [GenerateContent contents]
    end.

(** *** The SQLite driver *)

(** [sqlite3.connect(database)]: a connection, or the driver's exception
    when the file cannot be opened. *)
Definition sqlite3_connect (database : string) : M unit :=
  fun w =>
    match sqlite_connect (datastore w) database with
    | None => mkOutcome (Ok tt) w [SqliteConnect database]
    | Some msg =>
        mkOutcome (Raise (DatabaseError msg)) w [SqliteConnectFailed database]
    end.

Definition conn_cursor : M unit := emit SqliteCursor.

(** [cursor.execute(query)] *)
Definition cursor_execute (query : string) : M Cursor :=
  fun w =>
    match sqlite_execute (datastore w) query with
    | (s, ExecCursor c) =>
        mkOutcome (Ok c) (mkWorld s (model w) (session_messages w))
                  [SqliteExecute query]
    | (s, ExecRaises msg) =>
        mkOutcome (Raise (DatabaseError msg))
                  (mkWorld s (model w) (session_messages w))
                  [SqliteExecute query]
    end.

(** [conn.close()] *)
Definition conn_close : M unit :=
  fun w =>
    mkOutcome (Ok tt)
              (mkWorld (sqlite_close (datastore w)) (model w) (session_messages w))
              [SqliteClose].

(** Lines 88-90: [rows = []; for row in results: rows.append(row)].
    [pending] is what the cursor has still to yield. *)
Fixpoint append_rows (pending : list Row) (rows : list Row) : list Row :=
  match pending with
  | [] => rows
  | row :: rest => append_rows rest (rows ++ [row])
  end.

Definition iterate_cursor (results : Cursor) : M (list Row) :=
  let rows := append_rows (fetched results) [] in
  match fault results with
  | None => ret rows
  | Some msg => raise (DatabaseError msg)
  end.

(** ** The functions of [app.py] *)

(** The f-string of lines 20-77. *)
Definition sql_prompt (query : string) : string :=
  (nl ++ unlines sql_prompt_head
     ++ "    " ++ dq ++ query ++ dq ++ nl
     ++ nl
     ++ "💡  SQL Insight Output (only the SQL query):" ++ nl
     ++ "    ")%string.

(** Lines 16-79. *)
Definition get_sql_query (query : string) : M string :=
  let prompt := sql_prompt query in
  model_generate_content [prompt; query].

(** Lines 81-92. *)
Definition get_sql_results (query : string) : M (list Row) :=
  sqlite3_connect "customer.db" ;;
  conn_cursor ;;
  results <- cursor_execute query ;;
  rows <- iterate_cursor results ;;
  conn_close ;;
  ret rows.

(** The f-string of lines 98-126. *)
Definition insight_prompt (user_query sql_query : string) (results : list Row)
  : string :=
  (nl ++ unlines insight_prompt_head
     ++ "    " ++ user_query ++ nl
     ++ "    and the sql query prepared by the LLM by taking the semantic context of the user's query:" ++ nl
     ++ "    " ++ sql_query ++ nl
     ++ "    Here is the result of the SQL query:" ++ nl
     ++ "    " ++ str_rows results ++ nl
     ++ "    Please write your marketing insight based on this result:" ++ nl
     ++ "    ")%string.

(** Lines 94-128. *)
Definition generate_insights (user_query sql_query : string)
  (results : list Row) : M string :=
  let prompt := insight_prompt user_query sql_query results in
  model_generate_content [prompt].

(** Truth value of a [str] and of a [list]. *)
Definition str_truthy (s : string) : bool :=
  match s with EmptyString => false | String _ _ => true end.

Definition list_truthy {A : Type} (l : list A) : bool :=
  match l with [] => false | _ :: _ => true end.

(** Reading a local name of [main]: [None] is a name no assignment has
    bound yet. *)
Definition read_local (name : string) (binding : option string) : M string :=
  match binding with
  | Some v => ret v
  | None => raise (UnboundLocalError name)
  end.

(** Lines 161-168.  The value is the binding of [insight_response] when
    the [if] statement is left: only the [else] arm assigns it. *)
Definition show_results (user_input sql_query : string) (results : list Row)
  : M (option string) :=
  if negb (list_truthy results) then
    emit (StWarning "No data returned for this query.") ;;
    ret None
  else
    emit (StMarkdown "**SQL Output:**") ;;
    emit (StDataframe results) ;;
    insight_response <- generate_insights user_input sql_query results ;;
    emit (StMarkdown "💡**Insight:**") ;;
    emit (StSuccess insight_response) ;;
    ret (Some insight_response).

(** Line 171: [insight_response if results else "No data to generate
    insights."].  The condition is evaluated first and only the chosen
    arm after it. *)
Definition assistant_content (insight_response : option string)
  (results : list Row) : M string :=
  if list_truthy results then read_local "insight_response" insight_response
  else ret "No data to generate insights.".

(** Lines 149-171, the body of [with st.chat_message("assistant")]. *)
Definition answer (user_input : string) : M unit :=
  sql_query <- get_sql_query user_input ;;
  if String.eqb sql_query "INVALID QUERY" then
    emit (StError "Invalid SQL query. Please try again.")
  else if String.eqb sql_query "NO RESULTS" then
    emit (StWarning "No results found for this query.")
  else
    emit (StMarkdown "**Generated SQL Query:**") ;;
    emit (StCode sql_query "sql") ;;
    results <- get_sql_results sql_query ;;
    insight_response <- show_results user_input sql_query results ;;
    content <- assistant_content insight_response results ;;
    messages_append (mkMessage "assistant" content).

(** Lines 130-171.  [user_input] is what [st.chat_input] returns in this
    run of the script: [None] when nothing was submitted. *)
Definition main (user_input : option string) : M unit :=
  emit (StSetPageConfig "InsightsMania" "centered") ;;
  emit (StTitle "🎯 InsightsMania – Marketing Insights Generator") ;;
  init_messages ;;
  messages <- get_messages ;;
  for_each messages (fun message =>
    with_chat_message (role message) (emit (StMarkdown (content message)))) ;;
  emit (StChatInput "Ask your marketing question here...") ;;
  match user_input with
  | None => ret tt
  | Some user_input =>
      if str_truthy user_input then
        messages_append (mkMessage "user" user_input) ;;
        with_chat_message "user" (emit (StMarkdown user_input)) ;;
        with_chat_message "assistant" (answer user_input)
      else ret tt
  end.

End Embedding.

Arguments mkOutcome {C A} result world events.
Arguments result {C A} o.
Arguments world {C A} o.
Arguments events {C A} o.

(** ** Observations on a run *)

(** The SQL texts handed to [cursor.execute], in order. *)
Definition executed_sql (evs : list Event) : list string :=
  flat_map (fun e => match e with SqliteExecute q => [q] | _ => [] end) evs.

(** The calls to the driver. *)
Definition is_db_event (e : Event) : bool :=
  match e with
  | SqliteConnect _ | SqliteConnectFailed _ | SqliteCursor | SqliteExecute _
  | SqliteClose => true
  | _ => false
  end.

Definition db_events (evs : list Event) : list Event := filter is_db_event evs.

(** Whether a connection is open once [evs] have happened ([was] before). *)
Fixpoint connection_open (was : bool) (evs : list Event) : bool :=
  match evs with
  | [] => was
  | SqliteConnect _ :: rest => connection_open true rest
  | SqliteClose :: rest => connection_open false rest
  | _ :: rest => connection_open was rest
  end.

(** The contents handed to [model.generate_content], in order. *)
Definition model_calls (evs : list Event) : list (list string) :=
  flat_map (fun e => match e with GenerateContent cs => [cs] | _ => [] end) evs.

(** The three message classes of the surface: [st.error], [st.warning],
    [st.success]. *)
Inductive Notice : Type :=
| NoticeError (body : string)
| NoticeWarning (body : string)
| NoticeSuccess (body : string).

Definition notices (evs : list Event) : list Notice :=
  flat_map (fun e =>
    match e with
    | StError b => [NoticeError b]
    | StWarning b => [NoticeWarning b]
    | StSuccess b => [NoticeSuccess b]
    | _ => []
    end) evs.

(** The session history of a world. *)
Definition history {C : Collaborators} (w : World) : list Message :=
  match session_messages w with
  | Some ms => ms
  | None => []
  end.

(** What one pass of the rendering loop of lines 137-139 shows. *)
Definition render_events (ms : list Message) : list Event :=
  flat_map (fun m =>
    [StChatMessageEnter (role m); StMarkdown (content m);
     StChatMessageExit (role m)]) ms.

(** Everything [main] does before it looks at [user_input]. *)
Definition prelude_events (ms : list Message) : list Event :=
  [StSetPageConfig "InsightsMania" "centered";
   StTitle "🎯 InsightsMania – Marketing Insights Generator"]
  ++ render_events ms
  ++ [StChatInput "Ask your marketing question here..."].

(** What [get_sql_results] asks of the driver up to and including
    [cursor.execute], once [sqlite3.connect] has returned a connection. *)
Definition driver_events (query : string) : list Event :=
  [SqliteConnect "customer.db"; SqliteCursor; SqliteExecute query].

(** The events of a run of [main] on a submitted question, around the
    events [inner] of the assistant block. *)
Definition turn_events (ms : list Message) (user_input : string)
  (inner : list Event) : list Event :=
  prelude_events ms
  ++ [StChatMessageEnter "user"; StMarkdown user_input;
      StChatMessageExit "user"]
  ++ StChatMessageEnter "assistant" :: inner
  ++ [StChatMessageExit "assistant"].

(** The world the assistant block starts in: the key ["messages"] is
    set and the question is its last entry. *)
Definition asked {C : Collaborators} (w : World) (user_input : string) : World :=
  mkWorld (datastore w) (model w)
          (Some (history w ++ [mkMessage "user" user_input])).

(** The world a run that began in [w] ends in: the store [s], the model
    [l], and [entries] added to the history. *)
Definition after {C : Collaborators} (w : World) (s : Store) (l : Llm)
  (entries : list Message) : World :=
  mkWorld s l (Some (history w ++ entries)).

Definition user_says (q : string) : Message := mkMessage "user" q.
Definition assistant_says (c : string) : Message := mkMessage "assistant" c.

(** What the assistant block shows before the statement is run. *)
Definition sql_shown (q text : string) : list Event :=
  [GenerateContent [sql_prompt q; q];
   StMarkdown "**Generated SQL Query:**"; StCode text "sql"].

(** The call of the Query Generator in the turn on [q] from [w], and the
    call of the Query Executor on [text] that follows it. *)
Definition generated {C : Collaborators} (q : string) (w : World)
  : Outcome string :=
  get_sql_query q (asked w q).

Definition executed {C : Collaborators} (q : string) (w : World)
  (text : string) : Outcome (list Row) :=
  get_sql_results text (world (generated q w)).

Definition is_sentinel (text : string) : bool :=
  String.eqb text "INVALID QUERY" || String.eqb text "NO RESULTS".

(** ** The paths of a turn

    [Turn q w o]: [o] is the outcome of one of the nine ways through
    [main] on the submitted question [q] from the world [w], each decided
    by what the collaborators answer. *)
Inductive Turn {C : Collaborators} (q : string) (w : World)
  : Outcome unit -> Prop :=
| GeneratorFails l msg :
    generate_content (model w) [sql_prompt q; q] = (l, LlmRaises msg) ->
    Turn q w
      (mkOutcome (Raise (GenerationError msg))
         (after w (datastore w) l [user_says q])
         (turn_events (history w) q [GenerateContent [sql_prompt q; q]]))
| Invalid l :
    generate_content (model w) [sql_prompt q; q] = (l, LlmText "INVALID QUERY") ->
    Turn q w
      (mkOutcome (Ok tt)
         (after w (datastore w) l [user_says q])
         (turn_events (history w) q
            [GenerateContent [sql_prompt q; q];
             StError "Invalid SQL query. Please try again."]))
| NoResultsSentinel l :
    generate_content (model w) [sql_prompt q; q] = (l, LlmText "NO RESULTS") ->
    Turn q w
      (mkOutcome (Ok tt)
         (after w (datastore w) l [user_says q])
         (turn_events (history w) q
            [GenerateContent [sql_prompt q; q];
             StWarning "No results found for this query."]))
| ConnectFails l text msg :
    generate_content (model w) [sql_prompt q; q] = (l, LlmText text) ->
    is_sentinel text = false ->
    sqlite_connect (datastore w) "customer.db" = Some msg ->
    Turn q w
      (mkOutcome (Raise (DatabaseError msg))
         (after w (datastore w) l [user_says q])
         (turn_events (history w) q
            (sql_shown q text ++ [SqliteConnectFailed "customer.db"])))
| ExecuteFails l text s msg :
    generate_content (model w) [sql_prompt q; q] = (l, LlmText text) ->
    is_sentinel text = false ->
    sqlite_connect (datastore w) "customer.db" = None ->
    sqlite_execute (datastore w) text = (s, ExecRaises msg) ->
    Turn q w
      (mkOutcome (Raise (DatabaseError msg))
         (after w s l [user_says q])
         (turn_events (history w) q (sql_shown q text ++ driver_events text)))
| FetchFails l text s rows msg :
    generate_content (model w) [sql_prompt q; q] = (l, LlmText text) ->
    is_sentinel text = false ->
    sqlite_connect (datastore w) "customer.db" = None ->
    sqlite_execute (datastore w) text
      = (s, ExecCursor (mkCursor rows (Some msg))) ->
    Turn q w
      (mkOutcome (Raise (DatabaseError msg))
         (after w s l [user_says q])
         (turn_events (history w) q (sql_shown q text ++ driver_events text)))
| EmptyResults l text s :
    generate_content (model w) [sql_prompt q; q] = (l, LlmText text) ->
    is_sentinel text = false ->
    sqlite_connect (datastore w) "customer.db" = None ->
    sqlite_execute (datastore w) text = (s, ExecCursor (mkCursor [] None)) ->
    Turn q w
      (mkOutcome (Ok tt)
         (after w (sqlite_close s) l
            [user_says q; assistant_says "No data to generate insights."])
         (turn_events (history w) q
            (sql_shown q text ++ driver_events text
             ++ [SqliteClose; StWarning "No data returned for this query."])))
| InsightReady l text s row rows l' insight :
    generate_content (model w) [sql_prompt q; q] = (l, LlmText text) ->
    is_sentinel text = false ->
    sqlite_connect (datastore w) "customer.db" = None ->
    sqlite_execute (datastore w) text
      = (s, ExecCursor (mkCursor (row :: rows) None)) ->
    generate_content l [insight_prompt q text (row :: rows)]
      = (l', LlmText insight) ->
    Turn q w
      (mkOutcome (Ok tt)
         (after w (sqlite_close s) l' [user_says q; assistant_says insight])
         (turn_events (history w) q
            (sql_shown q text ++ driver_events text
             ++ [SqliteClose; StMarkdown "**SQL Output:**";
                 StDataframe (row :: rows);
                 GenerateContent [insight_prompt q text (row :: rows)];
                 StMarkdown "💡**Insight:**"; StSuccess insight])))
| InsightFails l text s row rows l' msg :
    generate_content (model w) [sql_prompt q; q] = (l, LlmText text) ->
    is_sentinel text = false ->
    sqlite_connect (datastore w) "customer.db" = None ->
    sqlite_execute (datastore w) text
      = (s, ExecCursor (mkCursor (row :: rows) None)) ->
    generate_content l [insight_prompt q text (row :: rows)]
      = (l', LlmRaises msg) ->
    Turn q w
      (mkOutcome (Raise (GenerationError msg))
         (after w (sqlite_close s) l' [user_says q])
         (turn_events (history w) q
            (sql_shown q text ++ driver_events text
             ++ [SqliteClose; StMarkdown "**SQL Output:**";
                 StDataframe (row :: rows);
                 GenerateContent [insight_prompt q text (row :: rows)]]))).

(** ** Further observations *)

(** Whether [if user_input:] of line 142 is taken. *)
Definition submitted (user_input : option string) : bool :=
  match user_input with
  | Some s => str_truthy s
  | None => false
  end.

(** The world a run without a question ends in: the key ["messages"] is
    set, nothing else has changed. *)
Definition idle_world {C : Collaborators} (w : World) : World :=
  mkWorld (datastore w) (model w) (Some (history w)).

(** The [st.chat_message] blocks that are open once [evs] have happened,
    innermost first, from the blocks [stack] open before; [None] when a
    block is left that is not the innermost open one. *)
Fixpoint chat_stack (stack : list string) (evs : list Event)
  : option (list string) :=
  match evs with
  | [] => Some stack
  | StChatMessageEnter name :: rest => chat_stack (name :: stack) rest
  | StChatMessageExit name :: rest =>
      match stack with
      | top :: below =>
          if String.eqb top name then chat_stack below rest else None
      | [] => None
      end
  | _ :: rest => chat_stack stack rest
  end.

(** How many connections were opened ([sqlite3.connect] returned), and
    how many closed. *)
Definition connects (evs : list Event) : nat :=
  length (filter (fun e => match e with SqliteConnect _ => true | _ => false end) evs).

Definition closes (evs : list Event) : nat :=
  length (filter (fun e => match e with SqliteClose => true | _ => false end) evs).

(** The files [sqlite3.connect] was called on, whether it returned or
    raised. *)
Definition opened_files (evs : list Event) : list string :=
  flat_map (fun e =>
    match e with
    | SqliteConnect db | SqliteConnectFailed db => [db]
    | _ => []
    end) evs.

(** Every assistant entry of [ms] comes directly after a user entry;
    [after_user] tells whether the entry before [ms] is a user entry. *)
Fixpoint follows_user (after_user : bool) (ms : list Message) : bool :=
  match ms with
  | [] => true
  | m :: rest =>
      if String.eqb (role m) "assistant"
      then after_user && follows_user false rest
      else follows_user (String.eqb (role m) "user") rest
  end.

Definition paired (ms : list Message) : bool := follows_user false ms.


(** ** Test doubles

    A small driver, a scripted model and a fixed renderer, to run the
    script on concrete inputs. *)
Module Double.

(** The store: the content of table [customer] ([None] once the table
    has been dropped), whether the file can be opened, and how often
    [random()] has been read. *)
Record store : Type := mkStore {
  customer : option (list Row);
  readable : bool;
  draws : Z
}.

Definition select_all : string := "SELECT platform, ROAS FROM customer".
Definition select_none : string :=
  "SELECT platform FROM customer WHERE platform = 'NonExistentPlatform'".
Definition drop_table : string := "DROP TABLE customer".
Definition bad_column : string := "SELECT colour FROM customer".
Definition select_random : string := "SELECT random()".

Definition connect (s : store) (database : string) : option string :=
  if readable s then None else Some "unable to open database file".

Definition execute (s : store) (q : string) : store * ExecOutcome :=
  if String.eqb q drop_table then
    match customer s with
    | Some _ =>
        (mkStore None (readable s) (draws s), ExecCursor (mkCursor [] None))
    | None => (s, ExecRaises "no such table: customer")
    end
  else if String.eqb q select_all then
    match customer s with
    | Some rows => (s, ExecCursor (mkCursor rows None))
    | None => (s, ExecRaises "no such table: customer")
    end
  else if String.eqb q select_none then
    match customer s with
    | Some _ => (s, ExecCursor (mkCursor [] None))
    | None => (s, ExecRaises "no such table: customer")
    end
  else if String.eqb q bad_column then
    (s, ExecRaises "no such column: colour")
  else if String.eqb q select_random then
    (mkStore (customer s) (readable s) (draws s + 1),
     ExecCursor (mkCursor [[SqlInteger (draws s)]] None))
  else (s, ExecRaises "near: syntax error").

(** The model answers with the next entry of its script. *)
Definition script : Type := list LlmOutcome.

Definition generate (l : script) (contents : list string)
  : script * LlmOutcome :=
  match l with
  | [] => ([], LlmRaises "no candidates returned")
  | o :: rest => (rest, o)
  end.

Definition show_rows (rows : list Row) : string :=
  match rows with
  | [] => "[]"
  | _ :: _ => "[...]"
  end.

#[export] Instance collaborators : Collaborators := {|
  Store := store;
  File := option (list Row) * bool;
  file_of := fun s => (customer s, readable s);
  Llm := script;
  sqlite_connect := connect;
  sqlite_execute := execute;
  sqlite_close := fun s => s;
  generate_content := generate;
  str_rows := show_rows
|}.

(** [("Meta", 4.2)] and [("Google", 2.3)]. *)
Definition meta_row : Row := [SqlText "Meta"; SqlReal 4616414798036126925].
Definition google_row : Row := [SqlText "Google"; SqlReal 4612361558371493478].

Definition table : store := mkStore (Some [meta_row; google_row]) true 0.

(** The same file when it cannot be opened. *)
Definition locked_table : store := mkStore (Some [meta_row; google_row]) false 0.

(** A fresh session over [table] whose model will answer [answers]. *)
Definition fresh (answers : script) : World := mkWorld table answers None.

(** A fresh session over [locked_table]. *)
Definition locked (answers : script) : World :=
  mkWorld locked_table answers None.

Definition question : string := "What platform had the highest ROAS last month?".

End Double.

(** * Properties *)

Section Properties.

Context {C : Collaborators}.

(** ** Strings *)

Lemma string_app_assoc (a b c : string) :
  ((a ++ b) ++ c = a ++ b ++ c)%string.
Proof. induction a as [| x a IH]; simpl; [reflexivity | now rewrite IH]. Qed.

Lemma insight_prompt_carries :
  exists a b c d : string, forall user_query sql_query results,
    insight_prompt user_query sql_query results
    = (a ++ user_query ++ b ++ sql_query ++ c ++ str_rows results ++ d)%string.
Proof.
  exists (nl ++ unlines insight_prompt_head ++ "    ")%string.
  exists (nl ++ "    and the sql query prepared by the LLM by taking the semantic context of the user's query:" ++ nl ++ "    ")%string.
  exists (nl ++ "    Here is the result of the SQL query:" ++ nl ++ "    ")%string.
  exists (nl ++ "    Please write your marketing insight based on this result:" ++ nl ++ "    ")%string.
  intros u s r. unfold insight_prompt.
  generalize (unlines insight_prompt_head). intros h.
  rewrite !string_app_assoc. reflexivity.
Qed.

(** ** The loop of [get_sql_results] and the rendering loop *)

Lemma append_rows_app (pending rows : list Row) :
  append_rows pending rows = rows ++ pending.
Proof.
  revert rows. induction pending as [| row rest IH]; intros rows; simpl.
  - now rewrite app_nil_r.
  - rewrite IH, <- app_assoc. reflexivity.
Qed.

Lemma append_rows_all (pending : list Row) : append_rows pending [] = pending.
Proof. apply append_rows_app. Qed.

Lemma for_each_render (ms : list Message) (w : World) :
  for_each ms (fun message =>
    with_chat_message (role message) (emit (StMarkdown (content message)))) w
  = mkOutcome (Ok tt) w (render_events ms).
Proof.
  revert w. induction ms as [| m rest IH]; intros w; simpl.
  - reflexivity.
  - unfold bind at 1. unfold with_chat_message at 1, emit at 1. simpl.
    rewrite IH. reflexivity.
Qed.

(** ** Observations distribute over concatenation *)

Lemma executed_sql_app (a b : list Event) :
  executed_sql (a ++ b) = executed_sql a ++ executed_sql b.
Proof. apply flat_map_app. Qed.

Lemma model_calls_app (a b : list Event) :
  model_calls (a ++ b) = model_calls a ++ model_calls b.
Proof. apply flat_map_app. Qed.

Lemma notices_app (a b : list Event) :
  notices (a ++ b) = notices a ++ notices b.
Proof. apply flat_map_app. Qed.

Lemma db_events_app (a b : list Event) :
  db_events (a ++ b) = db_events a ++ db_events b.
Proof. apply filter_app. Qed.

Lemma render_quiet (ms : list Message) :
  executed_sql (render_events ms) = [] /\ model_calls (render_events ms) = []
  /\ notices (render_events ms) = [] /\ db_events (render_events ms) = [].
Proof.
  induction ms as [| m rest [IH1 [IH2 [IH3 IH4]]]]; simpl; auto.
Qed.

Lemma prelude_quiet (ms : list Message) :
  executed_sql (prelude_events ms) = [] /\ model_calls (prelude_events ms) = []
  /\ notices (prelude_events ms) = [] /\ db_events (prelude_events ms) = [].
Proof.
  destruct (render_quiet ms) as [H1 [H2 [H3 H4]]]. unfold prelude_events.
  rewrite !executed_sql_app, !model_calls_app, !notices_app, !db_events_app.
  rewrite H1, H2, H3, H4. simpl. auto.
Qed.

(** ** [get_sql_results], case by case *)

Lemma get_sql_results_run (query : string) (w : World) :
  get_sql_results query w =
  match sqlite_connect (datastore w) "customer.db" with
  | Some msg =>
      mkOutcome (Raise (DatabaseError msg)) w
                [SqliteConnectFailed "customer.db"]
  | None =>
      match sqlite_execute (datastore w) query with
      | (s, ExecRaises msg) =>
          mkOutcome (Raise (DatabaseError msg))
                    (mkWorld s (model w) (session_messages w))
                    (driver_events query)
      | (s, ExecCursor c) =>
          match fault c with
          | Some msg =>
              mkOutcome (Raise (DatabaseError msg))
                        (mkWorld s (model w) (session_messages w))
                        (driver_events query)
          | None =>
              mkOutcome (Ok (fetched c))
                        (mkWorld (sqlite_close s) (model w) (session_messages w))
                        (driver_events query ++ [SqliteClose])
          end
      end
  end.
Proof.
  unfold get_sql_results, bind, sqlite3_connect, conn_cursor, emit,
    cursor_execute, iterate_cursor, conn_close, ret, raise, driver_events.
  destruct (sqlite_connect (datastore w) "customer.db") as [msg |];
    [reflexivity |].
  simpl.
  destruct (sqlite_execute (datastore w) query) as [s [msg | c]]; simpl.
  - reflexivity.
  - destruct (fault c) as [msg |]; simpl.
    + reflexivity.
    + rewrite append_rows_all. reflexivity.
Qed.

(** ** [main] on a submitted question *)

Lemma main_turn (user_input : string) (w : World) :
  str_truthy user_input = true ->
  main (Some user_input) w =
  match answer user_input (asked w user_input) with
  | mkOutcome r w1 ev =>
      mkOutcome r w1 (turn_events (history w) user_input ev)
  end.
Proof.
  intros Ht. unfold main, asked, history.
  destruct w as [s l [ms |]];
    unfold bind at 1; unfold emit at 1;
    unfold bind at 1; unfold emit at 1;
    unfold bind at 1; unfold init_messages at 1; cbn [session_messages datastore model];
    unfold bind at 1; unfold get_messages at 1; cbn [session_messages];
    unfold bind at 1; rewrite for_each_render;
    unfold bind at 1; unfold emit at 1;
    rewrite Ht;
    unfold bind at 1; unfold messages_append at 1; cbn [session_messages datastore model];
    unfold bind at 1; unfold with_chat_message at 1, emit at 1;
    unfold with_chat_message;
    match goal with |- context [answer ?q ?w0] => destruct (answer q w0) as [r w1 ev] end;
    unfold turn_events, prelude_events; cbn [app]; rewrite <- ?app_assoc; reflexivity.
Qed.

(** ** The assistant block, path by path

    The block is run in a world [mkWorld s0 l0 (Some ms)]: [main] has set
    the key ["messages"] before. *)

#[local] Arguments String.eqb : simpl never.
#[local] Arguments sql_prompt : simpl never.
#[local] Arguments insight_prompt : simpl never.

Ltac run_script :=
  unfold answer, get_sql_query, show_results, assistant_content,
    generate_insights, read_local, messages_append, model_generate_content,
    bind, emit, ret, raise;
  cbn [model datastore session_messages].

Lemma is_sentinel_false (text : string) :
  is_sentinel text = false ->
  String.eqb text "INVALID QUERY" = false /\ String.eqb text "NO RESULTS" = false.
Proof. unfold is_sentinel. intros H. now apply orb_false_iff in H. Qed.

(** The model call of the Query Generator raises. *)
Lemma answer_generator_raises q s0 l0 ms l msg :
  generate_content l0 [sql_prompt q; q] = (l, LlmRaises msg) ->
  answer q (mkWorld s0 l0 (Some ms)) =
  mkOutcome (Raise (GenerationError msg)) (mkWorld s0 l (Some ms))
            [GenerateContent [sql_prompt q; q]].
Proof. intros Hg. run_script. rewrite Hg. reflexivity. Qed.

(** The Query Generator answers ["INVALID QUERY"]. *)
Lemma answer_invalid q s0 l0 ms l :
  generate_content l0 [sql_prompt q; q] = (l, LlmText "INVALID QUERY") ->
  answer q (mkWorld s0 l0 (Some ms)) =
  mkOutcome (Ok tt) (mkWorld s0 l (Some ms))
            [GenerateContent [sql_prompt q; q];
             StError "Invalid SQL query. Please try again."].
Proof. intros Hg. run_script. rewrite Hg. reflexivity. Qed.

(** The Query Generator answers ["NO RESULTS"]. *)
Lemma answer_no_results q s0 l0 ms l :
  generate_content l0 [sql_prompt q; q] = (l, LlmText "NO RESULTS") ->
  answer q (mkWorld s0 l0 (Some ms)) =
  mkOutcome (Ok tt) (mkWorld s0 l (Some ms))
            [GenerateContent [sql_prompt q; q];
             StWarning "No results found for this query."].
Proof. intros Hg. run_script. rewrite Hg. reflexivity. Qed.

(** Any other answer is taken for a statement; [sqlite3.connect]
    raises. *)
Lemma answer_connect_raises q s0 l0 ms l text msg :
  generate_content l0 [sql_prompt q; q] = (l, LlmText text) ->
  is_sentinel text = false ->
  sqlite_connect s0 "customer.db" = Some msg ->
  answer q (mkWorld s0 l0 (Some ms)) =
  mkOutcome (Raise (DatabaseError msg)) (mkWorld s0 l (Some ms))
            ([GenerateContent [sql_prompt q; q];
              StMarkdown "**Generated SQL Query:**"; StCode text "sql"]
             ++ [SqliteConnectFailed "customer.db"]).
Proof.
  intros Hg Hs Hc. destruct (is_sentinel_false _ Hs) as [H1 H2].
  run_script. rewrite Hg, H1, H2. rewrite get_sql_results_run.
  cbn [datastore model session_messages]. rewrite Hc. reflexivity.
Qed.

(** Any other answer is run; [cursor.execute] raises. *)
Lemma answer_execute_raises q s0 l0 ms l text s msg :
  generate_content l0 [sql_prompt q; q] = (l, LlmText text) ->
  is_sentinel text = false ->
  sqlite_connect s0 "customer.db" = None ->
  sqlite_execute s0 text = (s, ExecRaises msg) ->
  answer q (mkWorld s0 l0 (Some ms)) =
  mkOutcome (Raise (DatabaseError msg)) (mkWorld s l (Some ms))
            ([GenerateContent [sql_prompt q; q];
              StMarkdown "**Generated SQL Query:**"; StCode text "sql"]
             ++ driver_events text).
Proof.
  intros Hg Hs Hc He. destruct (is_sentinel_false _ Hs) as [H1 H2].
  run_script. rewrite Hg, H1, H2. rewrite get_sql_results_run.
  cbn [datastore model session_messages]. rewrite Hc, He. reflexivity.
Qed.

(** Any other answer is run; fetching the rows raises. *)
Lemma answer_fetch_raises q s0 l0 ms l text s rows msg :
  generate_content l0 [sql_prompt q; q] = (l, LlmText text) ->
  is_sentinel text = false ->
  sqlite_connect s0 "customer.db" = None ->
  sqlite_execute s0 text = (s, ExecCursor (mkCursor rows (Some msg))) ->
  answer q (mkWorld s0 l0 (Some ms)) =
  mkOutcome (Raise (DatabaseError msg)) (mkWorld s l (Some ms))
            ([GenerateContent [sql_prompt q; q];
              StMarkdown "**Generated SQL Query:**"; StCode text "sql"]
             ++ driver_events text).
Proof.
  intros Hg Hs Hc He. destruct (is_sentinel_false _ Hs) as [H1 H2].
  run_script. rewrite Hg, H1, H2. rewrite get_sql_results_run.
  cbn [datastore model session_messages]. rewrite Hc, He. reflexivity.
Qed.

(** The statement runs and yields no row. *)
Lemma answer_empty q s0 l0 ms l text s :
  generate_content l0 [sql_prompt q; q] = (l, LlmText text) ->
  is_sentinel text = false ->
  sqlite_connect s0 "customer.db" = None ->
  sqlite_execute s0 text = (s, ExecCursor (mkCursor [] None)) ->
  answer q (mkWorld s0 l0 (Some ms)) =
  mkOutcome (Ok tt)
            (mkWorld (sqlite_close s) l
               (Some (ms ++ [mkMessage "assistant" "No data to generate insights."])))
            ([GenerateContent [sql_prompt q; q];
              StMarkdown "**Generated SQL Query:**"; StCode text "sql"]
             ++ driver_events text
             ++ [SqliteClose; StWarning "No data returned for this query."]).
Proof.
  intros Hg Hs Hc He. destruct (is_sentinel_false _ Hs) as [H1 H2].
  run_script. rewrite Hg, H1, H2. rewrite get_sql_results_run.
  cbn [datastore model session_messages]. rewrite Hc, He. reflexivity.
Qed.

(** The statement yields rows and the Insight Generator answers. *)
Lemma answer_insight q s0 l0 ms l text s row rows l' insight :
  generate_content l0 [sql_prompt q; q] = (l, LlmText text) ->
  is_sentinel text = false ->
  sqlite_connect s0 "customer.db" = None ->
  sqlite_execute s0 text = (s, ExecCursor (mkCursor (row :: rows) None)) ->
  generate_content l [insight_prompt q text (row :: rows)] = (l', LlmText insight) ->
  answer q (mkWorld s0 l0 (Some ms)) =
  mkOutcome (Ok tt)
            (mkWorld (sqlite_close s) l'
               (Some (ms ++ [mkMessage "assistant" insight])))
            ([GenerateContent [sql_prompt q; q];
              StMarkdown "**Generated SQL Query:**"; StCode text "sql"]
             ++ driver_events text
             ++ [SqliteClose; StMarkdown "**SQL Output:**";
                 StDataframe (row :: rows);
                 GenerateContent [insight_prompt q text (row :: rows)];
                 StMarkdown "💡**Insight:**"; StSuccess insight]).
Proof.
  intros Hg Hs Hc He Hi. destruct (is_sentinel_false _ Hs) as [H1 H2].
  run_script. rewrite Hg, H1, H2. rewrite get_sql_results_run.
  cbn [datastore model session_messages]. rewrite Hc, He.
  cbn [fault fetched list_truthy negb model datastore session_messages].
  rewrite Hi. reflexivity.
Qed.

(** The statement yields rows and the model call of the Insight
    Generator raises. *)
Lemma answer_insight_raises q s0 l0 ms l text s row rows l' msg :
  generate_content l0 [sql_prompt q; q] = (l, LlmText text) ->
  is_sentinel text = false ->
  sqlite_connect s0 "customer.db" = None ->
  sqlite_execute s0 text = (s, ExecCursor (mkCursor (row :: rows) None)) ->
  generate_content l [insight_prompt q text (row :: rows)] = (l', LlmRaises msg) ->
  answer q (mkWorld s0 l0 (Some ms)) =
  mkOutcome (Raise (GenerationError msg))
            (mkWorld (sqlite_close s) l' (Some ms))
            ([GenerateContent [sql_prompt q; q];
              StMarkdown "**Generated SQL Query:**"; StCode text "sql"]
             ++ driver_events text
             ++ [SqliteClose; StMarkdown "**SQL Output:**";
                 StDataframe (row :: rows);
                 GenerateContent [insight_prompt q text (row :: rows)]]).
Proof.
  intros Hg Hs Hc He Hi. destruct (is_sentinel_false _ Hs) as [H1 H2].
  run_script. rewrite Hg, H1, H2. rewrite get_sql_results_run.
  cbn [datastore model session_messages]. rewrite Hc, He.
  cbn [fault fetched list_truthy negb model datastore session_messages].
  rewrite Hi. reflexivity.
Qed.

(** ** Every submitted question takes one of the nine paths *)

Lemma is_sentinel_cases (text : string) :
  text = "INVALID QUERY" \/ text = "NO RESULTS" \/ is_sentinel text = false.
Proof.
  unfold is_sentinel.
  destruct (String.eqb_spec text "INVALID QUERY") as [-> | _]; [now left |].
  destruct (String.eqb_spec text "NO RESULTS") as [-> | _]; [now right; left |].
  right; right; reflexivity.
Qed.

Lemma main_paths (q : string) (w : World) :
  str_truthy q = true -> Turn q w (main (Some q) w).
Proof.
  intros Ht. rewrite (main_turn q w Ht). unfold asked.
  destruct (generate_content (model w) [sql_prompt q; q]) as [l [text | msg]] eqn:Hg.
  2:{ rewrite (answer_generator_raises _ _ _ _ _ _ Hg).
      apply (GeneratorFails q w l msg Hg). }
  destruct (is_sentinel_cases text) as [-> | [-> | Hs]].
  { rewrite (answer_invalid _ _ _ _ _ Hg). apply (Invalid q w l Hg). }
  { rewrite (answer_no_results _ _ _ _ _ Hg). apply (NoResultsSentinel q w l Hg). }
  destruct (sqlite_connect (datastore w) "customer.db") as [msg |] eqn:Hc.
  { rewrite (answer_connect_raises _ _ _ _ _ _ _ Hg Hs Hc).
    apply (ConnectFails q w l text msg Hg Hs Hc). }
  destruct (sqlite_execute (datastore w) text) as [s [msg | [rows [msg |]]]] eqn:He.
  - rewrite (answer_execute_raises _ _ _ _ _ _ _ _ Hg Hs Hc He).
    apply (ExecuteFails q w l text s msg Hg Hs Hc He).
  - rewrite (answer_fetch_raises _ _ _ _ _ _ _ _ _ Hg Hs Hc He).
    apply (FetchFails q w l text s rows msg Hg Hs Hc He).
  - destruct rows as [| row rows].
    + rewrite (answer_empty _ _ _ _ _ _ _ Hg Hs Hc He).
      rewrite <- (app_assoc (history w)).
      apply (EmptyResults q w l text s Hg Hs Hc He).
    + destruct (generate_content l [insight_prompt q text (row :: rows)])
        as [l' [insight | msg]] eqn:Hi.
      * rewrite (answer_insight _ _ _ _ _ _ _ _ _ _ _ Hg Hs Hc He Hi).
        rewrite <- (app_assoc (history w)).
        apply (InsightReady q w l text s row rows l' insight Hg Hs Hc He Hi).
      * rewrite (answer_insight_raises _ _ _ _ _ _ _ _ _ _ _ Hg Hs Hc He Hi).
        apply (InsightFails q w l text s row rows l' msg Hg Hs Hc He Hi).
Qed.

(** ** What the hypotheses on the two calls say of the collaborators *)

Lemma turn_quiet (ms : list Message) (q : string) (inner : list Event) :
  executed_sql (turn_events ms q inner) = executed_sql inner
  /\ model_calls (turn_events ms q inner) = model_calls inner
  /\ notices (turn_events ms q inner) = notices inner
  /\ db_events (turn_events ms q inner) = db_events inner.
Proof.
  destruct (prelude_quiet ms) as [H1 [H2 [H3 H4]]]. unfold turn_events.
  rewrite !executed_sql_app, !model_calls_app, !notices_app, !db_events_app.
  rewrite H1, H2, H3, H4. cbn [app executed_sql model_calls notices db_events
    flat_map filter is_db_event].
  rewrite !executed_sql_app, !model_calls_app, !notices_app, !db_events_app.
  cbn. rewrite !app_nil_r. auto.
Qed.

Lemma generated_run (q : string) (w : World) :
  generated q w =
  match generate_content (model w) [sql_prompt q; q] with
  | (l, LlmText text) =>
      mkOutcome (Ok text) (after w (datastore w) l [user_says q])
                [GenerateContent [sql_prompt q; q]]
  | (l, LlmRaises msg) =>
      mkOutcome (Raise (GenerationError msg))
                (after w (datastore w) l [user_says q])
                [GenerateContent [sql_prompt q; q]]
  end.
Proof.
  unfold generated, get_sql_query, model_generate_content, asked, after.
  cbn [model datastore session_messages].
  destruct (generate_content (model w) [sql_prompt q; q]) as [l [text | msg]];
    reflexivity.
Qed.

Lemma generated_text (q : string) (w : World) (text : string) :
  result (generated q w) = Ok text ->
  exists l, generate_content (model w) [sql_prompt q; q] = (l, LlmText text)
            /\ world (generated q w) = after w (datastore w) l [user_says q].
Proof.
  rewrite generated_run.
  destruct (generate_content (model w) [sql_prompt q; q]) as [l [t | msg]];
    cbn; intros H; inversion H; subst. exists l. split; reflexivity.
Qed.

Lemma executed_rows (q : string) (w : World) (text : string) (rows : list Row) :
  result (generated q w) = Ok text ->
  result (executed q w text) = Ok rows ->
  exists s, sqlite_connect (datastore w) "customer.db" = None
            /\ sqlite_execute (datastore w) text
               = (s, ExecCursor (mkCursor rows None))
            /\ events (executed q w text) = driver_events text ++ [SqliteClose].
Proof.
  intros Hg. destruct (generated_text q w text Hg) as [l [_ Hw]].
  unfold executed. rewrite Hw, get_sql_results_run. unfold after.
  cbn [datastore model session_messages].
  destruct (sqlite_connect (datastore w) "customer.db") as [msg |];
    [cbn; discriminate |].
  destruct (sqlite_execute (datastore w) text) as [s [msg | [rs [msg |]]]];
    cbn; intros H; inversion H; subst. exists s. repeat split.
Qed.

(** The three ways the Query Executor raises. *)
Lemma executed_raises (q : string) (w : World) (text : string) (e : Exn) :
  result (generated q w) = Ok text ->
  result (executed q w text) = Raise e ->
  exists msg, e = DatabaseError msg
    /\ (sqlite_connect (datastore w) "customer.db" = Some msg
        \/ (sqlite_connect (datastore w) "customer.db" = None
            /\ exists s,
                 sqlite_execute (datastore w) text = (s, ExecRaises msg)
                 \/ exists rows, sqlite_execute (datastore w) text
                                 = (s, ExecCursor (mkCursor rows (Some msg))))).
Proof.
  intros Hg. destruct (generated_text q w text Hg) as [l [_ Hw]].
  unfold executed. rewrite Hw, get_sql_results_run. unfold after.
  cbn [datastore model session_messages].
  destruct (sqlite_connect (datastore w) "customer.db") as [m |].
  { cbn. intros H; inversion H; subst. exists m. auto. }
  destruct (sqlite_execute (datastore w) text) as [s [msg | [rs [msg |]]]];
    cbn; intros H; inversion H; subst; exists msg; split; try reflexivity;
    right; split; try reflexivity; exists s; eauto.
Qed.

Lemma not_sentinel (text : string) :
  text <> "INVALID QUERY" -> text <> "NO RESULTS" -> is_sentinel text = false.
Proof.
  intros H1 H2. destruct (is_sentinel_cases text) as [E | [E | E]];
    [contradiction | contradiction | exact E].
Qed.

Lemma is_sentinel_true (text : string) :
  is_sentinel text = true -> text = "INVALID QUERY" \/ text = "NO RESULTS".
Proof.
  intros H. destruct (is_sentinel_cases text) as [E | [E | E]]; auto.
  rewrite E in H. discriminate.
Qed.

Lemma history_after (w : World) (s : Store) (l : Llm) (entries : list Message) :
  history (after w s l entries) = history w ++ entries.
Proof. reflexivity. Qed.

(** ** The claims on one turn *)

(** Two hypotheses on the same collaborator call name the same answer. *)
Ltac same_answer :=
  repeat match goal with
  | H1 : ?a = (_, _), H2 : ?a = (_, _) |- _ =>
      rewrite H1 in H2; inversion H2; subst; clear H2
  | H1 : sqlite_connect ?s ?f = _, H2 : sqlite_connect ?s ?f = _ |- _ =>
      rewrite H1 in H2; inversion H2; subst; clear H2
  end.

(** The outcome of the turn, one case per path, with the answers of the
    collaborators identified with those of the hypotheses. *)
Ltac by_path q w Ht :=
  let P := fresh "P" in
  pose proof (main_paths q w Ht) as P;
  destruct P; same_answer; try discriminate;
  cbn [result world events];
  repeat match goal with
  | |- context [turn_events ?ms ?u ?inner] =>
      let Q1 := fresh in
      let Q2 := fresh in
      let Q3 := fresh in
      let Q4 := fresh in
      destruct (turn_quiet ms u inner) as [Q1 [Q2 [Q3 Q4]]];
      rewrite ?Q1, ?Q2, ?Q3, ?Q4; clear Q1 Q2 Q3 Q4
  end.

(** C1. When the Query Generator returns exactly ["INVALID QUERY"] the
    turn ends with the one error message and no call to the driver; when
    it returns exactly ["NO RESULTS"] the turn ends with the one warning
    and no call to the driver; and the driver is left alone only when the
    returned text equals one of the two strings character for character. *)
Theorem sentinel_skips_executor (q : string) (w : World) :
  str_truthy q = true ->
  (result (generated q w) = Ok "INVALID QUERY" ->
   result (main (Some q) w) = Ok tt
   /\ notices (events (main (Some q) w))
      = [NoticeError "Invalid SQL query. Please try again."]
   /\ db_events (events (main (Some q) w)) = [])
  /\ (result (generated q w) = Ok "NO RESULTS" ->
      result (main (Some q) w) = Ok tt
      /\ notices (events (main (Some q) w))
         = [NoticeWarning "No results found for this query."]
      /\ db_events (events (main (Some q) w)) = [])
  /\ (forall text, result (generated q w) = Ok text ->
      (db_events (events (main (Some q) w)) = []
       <-> text = "INVALID QUERY" \/ text = "NO RESULTS")).
Proof.
  intros Ht. split; [| split].
  - intros Hg. destruct (generated_text q w _ Hg) as [l [Hl _]].
    by_path q w Ht. repeat split.
  - intros Hg. destruct (generated_text q w _ Hg) as [l [Hl _]].
    by_path q w Ht. repeat split.
  - intros text Hg. destruct (generated_text q w _ Hg) as [l [Hl _]]. split.
    + intros Hd. destruct (is_sentinel_cases text) as [E | [E | E]]; auto.
      exfalso. revert Hd. by_path q w Ht; cbn; discriminate.
    + intros [-> | ->]; by_path q w Ht; reflexivity.
Qed.

(** C4. A Generator output that is neither of the two strings is taken
    for the statement as it is: all the driver sees in the turn is the one
    call [get_sql_results text], and the text is the one statement handed
    to [cursor.execute], unchanged, whenever [sqlite3.connect] returns a
    connection (when it raises, the Executor has been called on the text
    and executes nothing). *)
Theorem sql_text_passed_unmodified (q : string) (w : World) (text : string) :
  str_truthy q = true ->
  result (generated q w) = Ok text ->
  text <> "INVALID QUERY" -> text <> "NO RESULTS" ->
  executed_sql (events (main (Some q) w))
  = match sqlite_connect (datastore w) "customer.db" with
    | None => [text]
    | Some _ => []
    end
  /\ db_events (events (main (Some q) w)) = events (executed q w text).
Proof.
  intros Ht Hg N1 N2. pose proof (not_sentinel text N1 N2) as Hs. clear N1 N2.
  destruct (generated_text q w _ Hg) as [l [Hl Hw]].
  unfold executed. rewrite Hw, get_sql_results_run. unfold after.
  cbn [datastore model session_messages].
  by_path q w Ht;
    repeat match goal with
    | H : sqlite_connect _ _ = _ |- _ => rewrite H; clear H
    | H : sqlite_execute _ _ = _ |- _ => rewrite H; clear H
    end; cbn; split; reflexivity.
Qed.

(** C5. When the statement was run and [get_sql_results] returned no row,
    the turn ends with the one warning ["No data returned for this
    query."] and the model has been called once only, by the Query
    Generator: the Insight Generator is not invoked.  The text that was
    run is any text that is not one of the two strings. *)
Theorem empty_result_skips_insight (q : string) (w : World) (text : string) :
  str_truthy q = true ->
  result (generated q w) = Ok text ->
  text <> "INVALID QUERY" -> text <> "NO RESULTS" ->
  result (executed q w text) = Ok [] ->
  result (main (Some q) w) = Ok tt
  /\ notices (events (main (Some q) w))
     = [NoticeWarning "No data returned for this query."]
  /\ model_calls (events (main (Some q) w)) = [[sql_prompt q; q]].
Proof.
  intros Ht Hg N1 N2 Hr. pose proof (not_sentinel text N1 N2) as Hs. clear N1 N2.
  destruct (generated_text q w _ Hg) as [l [Hl _]].
  destruct (executed_rows q w text [] Hg Hr) as [s [Hc [He _]]].
  by_path q w Ht. repeat split.
Qed.

(** C6. When the statement was run and [get_sql_results] returned at
    least one row, the model is called twice in the turn: once by the
    Query Generator and once by [generate_insights], whose prompt is built
    from the question as submitted, the text that was run and all the rows
    that were returned, in order; the three are in the prompt as they
    are. *)
Theorem insight_generator_called_once (q : string) (w : World)
  (text : string) (row : Row) (rows : list Row) :
  str_truthy q = true ->
  result (generated q w) = Ok text ->
  text <> "INVALID QUERY" -> text <> "NO RESULTS" ->
  result (executed q w text) = Ok (row :: rows) ->
  model_calls (events (main (Some q) w))
  = [[sql_prompt q; q]; [insight_prompt q text (row :: rows)]]
  /\ (forall w', events (generate_insights q text (row :: rows) w')
                 = [GenerateContent [insight_prompt q text (row :: rows)]])
  /\ executed_sql (events (main (Some q) w)) = [text]
  /\ (exists a b c d : string, forall user_query sql_query results,
        insight_prompt user_query sql_query results
        = (a ++ user_query ++ b ++ sql_query ++ c
             ++ str_rows results ++ d)%string).
Proof.
  intros Ht Hg N1 N2 Hr. pose proof (not_sentinel text N1 N2) as Hs. clear N1 N2.
  destruct (generated_text q w _ Hg) as [l [Hl _]].
  destruct (executed_rows q w text _ Hg Hr) as [s [Hc [He _]]].
  split; [| split; [| split]].
  - by_path q w Ht; reflexivity.
  - intros w'. unfold generate_insights, model_generate_content.
    destruct (generate_content (model w') _) as [l' [i | m]]; reflexivity.
  - by_path q w Ht; reflexivity.
  - apply insight_prompt_carries.
Qed.

(** C10. On the empty branch the turn ends normally.  The [if] statement
    leaves [insight_response] unbound, and reading it unbound would raise;
    but with no rows the conditional of line 171 takes its [else] arm and
    the name is not read. *)
Theorem empty_branch_reads_no_unbound_name (q : string) (w : World)
  (text : string) :
  str_truthy q = true ->
  result (generated q w) = Ok text ->
  text <> "INVALID QUERY" -> text <> "NO RESULTS" ->
  result (executed q w text) = Ok [] ->
  result (main (Some q) w) = Ok tt
  /\ history (world (main (Some q) w))
     = history w ++ [user_says q;
                     assistant_says "No data to generate insights."]
  /\ (forall w', result (show_results q text [] w') = Ok None)
  /\ (forall w', result (assistant_content None [] w')
                 = Ok "No data to generate insights.")
  /\ (forall row rows w',
        result (assistant_content None (row :: rows) w')
        = Raise (UnboundLocalError "insight_response")).
Proof.
  intros Ht Hg N1 N2 Hr. pose proof (not_sentinel text N1 N2) as Hs. clear N1 N2.
  destruct (generated_text q w _ Hg) as [l [Hl _]].
  destruct (executed_rows q w text [] Hg Hr) as [s [Hc [He _]]].
  split; [| split; [| split; [| split]]]; try reflexivity.
  - by_path q w Ht. reflexivity.
  - by_path q w Ht. reflexivity.
Qed.

(** A turn on one of the two strings adds the question to the history
    and nothing else. *)
Lemma sentinel_history (q : string) (w : World) (text : string) :
  str_truthy q = true ->
  result (generated q w) = Ok text ->
  is_sentinel text = true ->
  history (world (main (Some q) w)) = history w ++ [user_says q].
Proof.
  intros Ht Hg Hs. destruct (generated_text q w _ Hg) as [l [Hl _]].
  destruct (is_sentinel_true text Hs) as [-> | ->];
    by_path q w Ht; reflexivity.
Qed.

(** C9. In every turn the question is added to the history once, before
    the first call to a collaborator: it is there also when the turn ends
    by an exception.  After it comes at most one assistant entry: none
    when the Generator returned one of the two strings, the fixed text
    when the statement returned no row, the insight when it returned rows.
    An assistant entry is there only when a statement was run.  Two turns
    in a row on the two strings leave two user entries next to each
    other. *)
Theorem history_after_turn (q : string) (w : World) :
  str_truthy q = true ->
  (exists tail, history (world (main (Some q) w))
                = history w ++ user_says q :: tail
                /\ (tail = [] \/ exists c, tail = [assistant_says c]))
  /\ (forall text, result (generated q w) = Ok text ->
        is_sentinel text = true ->
        history (world (main (Some q) w)) = history w ++ [user_says q])
  /\ (forall text, result (generated q w) = Ok text ->
        is_sentinel text = false ->
        result (executed q w text) = Ok [] ->
        history (world (main (Some q) w))
        = history w ++ [user_says q;
                        assistant_says "No data to generate insights."])
  /\ (forall text row rows insight, result (generated q w) = Ok text ->
        is_sentinel text = false ->
        result (executed q w text) = Ok (row :: rows) ->
        result (generate_insights q text (row :: rows)
                  (world (executed q w text))) = Ok insight ->
        history (world (main (Some q) w))
        = history w ++ [user_says q; assistant_says insight])
  /\ (forall e, result (main (Some q) w) = Raise e ->
        history (world (main (Some q) w)) = history w ++ [user_says q])
  /\ (history (world (main (Some q) w)) <> history w ++ [user_says q] ->
      executed_sql (events (main (Some q) w)) <> [])
  /\ (forall q' text text', str_truthy q' = true ->
        result (generated q w) = Ok text -> is_sentinel text = true ->
        result (generated q' (world (main (Some q) w))) = Ok text' ->
        is_sentinel text' = true ->
        history (world (main (Some q') (world (main (Some q) w))))
        = history w ++ [user_says q; user_says q']).
Proof.
  intros Ht. repeat match goal with |- _ /\ _ => split end.
  - by_path q w Ht; rewrite history_after; eexists; split;
      try reflexivity; eauto.
  - intros text Hg Hs. apply (sentinel_history q w text Ht Hg Hs).
  - intros text Hg Hs Hr. destruct (generated_text q w _ Hg) as [l [Hl _]].
    destruct (executed_rows q w text [] Hg Hr) as [s [Hc [He _]]].
    by_path q w Ht. reflexivity.
  - intros text row rows insight Hg Hs Hr Hi.
    destruct (generated_text q w _ Hg) as [l [Hl Hw]].
    destruct (executed_rows q w text _ Hg Hr) as [s [Hc [He _]]].
    revert Hi. unfold executed. rewrite Hw, get_sql_results_run. unfold after.
    cbn [datastore model session_messages]. rewrite Hc, He.
    cbn [fault fetched world]. unfold generate_insights, model_generate_content.
    cbn [datastore model session_messages].
    by_path q w Ht;
      match goal with
      | H : generate_content _ [insight_prompt _ _ _] = _ |- _ => rewrite H
      end; cbn; intros Hi; inversion Hi; subst; reflexivity.
  - intros e. by_path q w Ht; intros He; try discriminate; reflexivity.
  - by_path q w Ht; rewrite history_after; intros Hn;
      try (exfalso; apply Hn; reflexivity); cbn; discriminate.
  - intros q' text text' Ht' Hg Hs Hg' Hs'.
    rewrite (sentinel_history q' _ text' Ht' Hg' Hs').
    rewrite (sentinel_history q w text Ht Hg Hs).
    rewrite <- app_assoc. reflexivity.
Qed.

(** C3, as the script has it.  When the Query Executor raises, the
    exception leaves [main] as it is: no handler stands in between, the
    script shows no error, warning or success message in that turn, calls
    no Insight Generator and adds no assistant entry.  A turn that ends
    normally shows exactly one message, and which one is decided by how
    it ends: the fixed error on ["INVALID QUERY"], the first fixed warning
    on ["NO RESULTS"], the second fixed warning when the statement
    returned no row, and the insight as a success message when it
    returned rows.  A turn that ends by an exception shows none. *)
Theorem database_error_leaves_main (q : string) (w : World) :
  str_truthy q = true ->
  (forall text e, result (generated q w) = Ok text ->
     is_sentinel text = false ->
     result (executed q w text) = Raise e ->
     result (main (Some q) w) = Raise e
     /\ (exists msg, e = DatabaseError msg)
     /\ notices (events (main (Some q) w)) = []
     /\ model_calls (events (main (Some q) w)) = [[sql_prompt q; q]]
     /\ history (world (main (Some q) w)) = history w ++ [user_says q])
  /\ (result (generated q w) = Ok "INVALID QUERY" ->
      result (main (Some q) w) = Ok tt
      /\ notices (events (main (Some q) w))
         = [NoticeError "Invalid SQL query. Please try again."])
  /\ (result (generated q w) = Ok "NO RESULTS" ->
      result (main (Some q) w) = Ok tt
      /\ notices (events (main (Some q) w))
         = [NoticeWarning "No results found for this query."])
  /\ (forall text, result (generated q w) = Ok text ->
      is_sentinel text = false ->
      result (executed q w text) = Ok [] ->
      result (main (Some q) w) = Ok tt
      /\ notices (events (main (Some q) w))
         = [NoticeWarning "No data returned for this query."])
  /\ (forall text row rows insight, result (generated q w) = Ok text ->
      is_sentinel text = false ->
      result (executed q w text) = Ok (row :: rows) ->
      result (generate_insights q text (row :: rows)
                (world (executed q w text))) = Ok insight ->
      result (main (Some q) w) = Ok tt
      /\ notices (events (main (Some q) w)) = [NoticeSuccess insight])
  /\ (result (main (Some q) w) = Ok tt ->
      exists n, notices (events (main (Some q) w)) = [n]
        /\ (n = NoticeError "Invalid SQL query. Please try again."
            \/ n = NoticeWarning "No results found for this query."
            \/ n = NoticeWarning "No data returned for this query."
            \/ exists insight, n = NoticeSuccess insight))
  /\ (forall e, result (main (Some q) w) = Raise e ->
      notices (events (main (Some q) w)) = []).
Proof.
  intros Ht. repeat match goal with |- _ /\ _ => split end.
  - intros text e Hg Hs Hr. destruct (generated_text q w _ Hg) as [l [Hl _]].
    destruct (executed_raises q w text e Hg Hr)
      as [msg [-> [Hc | [Hc [s [He | [rs He]]]]]]];
      by_path q w Ht; repeat split; eauto.
  - intros Hg. destruct (generated_text q w _ Hg) as [l [Hl _]].
    by_path q w Ht. split; reflexivity.
  - intros Hg. destruct (generated_text q w _ Hg) as [l [Hl _]].
    by_path q w Ht. split; reflexivity.
  - intros text Hg Hs Hr. destruct (generated_text q w _ Hg) as [l [Hl _]].
    destruct (executed_rows q w text [] Hg Hr) as [s [Hc [He _]]].
    by_path q w Ht. split; reflexivity.
  - intros text row rows insight Hg Hs Hr Hi.
    destruct (generated_text q w _ Hg) as [l [Hl Hw]].
    destruct (executed_rows q w text _ Hg Hr) as [s [Hc [He _]]].
    revert Hi. unfold executed. rewrite Hw, get_sql_results_run. unfold after.
    cbn [datastore model session_messages]. rewrite Hc, He.
    cbn [fault fetched world]. unfold generate_insights, model_generate_content.
    cbn [datastore model session_messages].
    by_path q w Ht;
      match goal with
      | H : generate_content _ [insight_prompt _ _ _] = _ |- _ => rewrite H
      end; cbn; intros Hi; inversion Hi; subst; split; reflexivity.
  - by_path q w Ht; intros Hr; try discriminate; cbn; eexists; split;
      try reflexivity; eauto 6.
  - intros e. by_path q w Ht; intros Hr; try discriminate; reflexivity.
Qed.

(** ** The claims on [get_sql_results] *)

(** C2, as the script has it.  For every text the Query Executor calls
    [sqlite3.connect] on [customer.db].  When that raises, the exception
    goes to the caller and no connection exists.  When it returns, the
    Executor takes a cursor and executes the text; when execution and the
    fetching of the rows succeed it closes the connection and then returns
    all the rows of the cursor in their order; when either raises, the
    exception goes to the caller and [conn.close()] is not reached: the
    connection is still open. *)
Theorem executor_closes_on_success (query : string) (w : World) :
  (forall msg, sqlite_connect (datastore w) "customer.db" = Some msg ->
     result (get_sql_results query w) = Raise (DatabaseError msg)
     /\ events (get_sql_results query w) = [SqliteConnectFailed "customer.db"]
     /\ connection_open false (events (get_sql_results query w)) = false)
  /\ (sqlite_connect (datastore w) "customer.db" = None ->
      (forall s msg,
         sqlite_execute (datastore w) query = (s, ExecRaises msg) ->
         result (get_sql_results query w) = Raise (DatabaseError msg)
         /\ events (get_sql_results query w) = driver_events query
         /\ connection_open false (events (get_sql_results query w)) = true)
      /\ (forall s rows msg,
            sqlite_execute (datastore w) query
            = (s, ExecCursor (mkCursor rows (Some msg))) ->
            result (get_sql_results query w) = Raise (DatabaseError msg)
            /\ events (get_sql_results query w) = driver_events query
            /\ connection_open false (events (get_sql_results query w)) = true)
      /\ (forall s rows,
            sqlite_execute (datastore w) query
            = (s, ExecCursor (mkCursor rows None)) ->
            result (get_sql_results query w) = Ok rows
            /\ events (get_sql_results query w)
               = driver_events query ++ [SqliteClose]
            /\ connection_open false (events (get_sql_results query w)) = false
            /\ datastore (world (get_sql_results query w)) = sqlite_close s))
  /\ (forall rows, result (get_sql_results query w) = Ok rows ->
      events (get_sql_results query w) = driver_events query ++ [SqliteClose]
      /\ exists s, sqlite_execute (datastore w) query
                   = (s, ExecCursor (mkCursor rows None))).
Proof.
  rewrite get_sql_results_run.
  destruct (sqlite_connect (datastore w) "customer.db") as [m |].
  - split; [| split].
    + intros msg H. inversion H; subst. repeat split.
    + discriminate.
    + cbn. discriminate.
  - split; [discriminate |]. split.
    + intros _. split; [| split].
      * intros s msg He. rewrite He. repeat split.
      * intros s rows msg He. rewrite He. repeat split.
      * intros s rows He. rewrite He. repeat split.
    + destruct (sqlite_execute (datastore w) query) as [s [msg | [rs [msg |]]]];
        cbn; intros rows H; inversion H; subst. split; eauto.
Qed.


(** C8, as the script has it.  The Query Executor looks at no statement.
    Whether a text reaches [cursor.execute] is decided by [sqlite3.connect]
    alone, before the text is looked at: when the connection opens, the
    text as given is the one statement handed to the driver, whatever it
    is, and the store the Executor leaves is the one the driver made of
    it (closed when the call returns); when it does not open, nothing is
    executed.  The Executor sends no statement of its own. *)
Theorem executor_runs_any_statement (query : string) (w : World) :
  executed_sql (events (get_sql_results query w))
  = match sqlite_connect (datastore w) "customer.db" with
    | None => [query]
    | Some _ => []
    end
  /\ (events (get_sql_results query w) = [SqliteConnectFailed "customer.db"]
      \/ events (get_sql_results query w) = driver_events query
      \/ events (get_sql_results query w)
         = driver_events query ++ [SqliteClose])
  /\ datastore (world (get_sql_results query w))
     = match sqlite_connect (datastore w) "customer.db" with
       | Some _ => datastore w
       | None =>
           match sqlite_execute (datastore w) query with
           | (s, ExecCursor (mkCursor _ None)) => sqlite_close s
           | (s, _) => s
           end
       end
  /\ (forall msg, sqlite_connect (datastore w) "customer.db" = Some msg ->
      result (get_sql_results query w) = Raise (DatabaseError msg)).
Proof.
  rewrite get_sql_results_run.
  destruct (sqlite_connect (datastore w) "customer.db") as [m |].
  - cbn. repeat split; auto. intros msg H. inversion H. reflexivity.
  - destruct (sqlite_execute (datastore w) query) as [s [msg | [rs [msg |]]]];
      cbn; repeat split; auto; discriminate.
Qed.

(** ** Runs without a question, and runs on any input *)

Lemma main_idle (user_input : option string) (w : World) :
  submitted user_input = false ->
  main user_input w
  = mkOutcome (Ok tt) (idle_world w) (prelude_events (history w)).
Proof.
  intros Hs. unfold main, idle_world, history.
  destruct w as [s l [ms |]];
    unfold bind at 1; unfold emit at 1;
    unfold bind at 1; unfold emit at 1;
    unfold bind at 1; unfold init_messages at 1; cbn [session_messages datastore model];
    unfold bind at 1; unfold get_messages at 1; cbn [session_messages];
    unfold bind at 1; rewrite for_each_render;
    unfold bind at 1; unfold emit at 1;
    (destruct user_input as [u |]; [cbn in Hs; rewrite Hs |]);
    unfold ret, prelude_events; cbn [app]; rewrite <- ?app_assoc;
    rewrite ?app_nil_r; reflexivity.
Qed.

Lemma main_cases (user_input : option string) (w : World) :
  (submitted user_input = false
   /\ main user_input w
      = mkOutcome (Ok tt) (idle_world w) (prelude_events (history w)))
  \/ (exists q, user_input = Some q /\ str_truthy q = true).
Proof.
  destruct (submitted user_input) eqn:Hs.
  - right. destruct user_input as [q |]; [| discriminate]. exists q. auto.
  - left. split; [reflexivity | now apply main_idle].
Qed.

(** The outcome of a run on any input: the idle run, or one case per path
    of a turn. *)
Ltac by_input i w :=
  let Hi := fresh "Hi" in
  let Hm := fresh "Hm" in
  let u := fresh "u" in
  let Hu := fresh "Hu" in
  destruct (main_cases i w) as [[Hi Hm] | [u [-> Hu]]];
  [ rewrite Hm; cbn [result world events];
    destruct (prelude_quiet (history w)) as [?P1 [?P2 [?P3 ?P4]]]
  | by_path u w Hu ].

(** X1. A run in which nothing was submitted, or the empty string, only
    renders: it ends normally, calls neither the model nor the driver,
    shows no error, warning or success message, and leaves the history,
    the store and the model as they were. *)
Theorem idle_run_only_renders (user_input : option string) (w : World) :
  submitted user_input = false ->
  result (main user_input w) = Ok tt
  /\ events (main user_input w) = prelude_events (history w)
  /\ model_calls (events (main user_input w)) = []
  /\ db_events (events (main user_input w)) = []
  /\ notices (events (main user_input w)) = []
  /\ history (world (main user_input w)) = history w
  /\ datastore (world (main user_input w)) = datastore w
  /\ model (world (main user_input w)) = model w.
Proof.
  intros Hs. rewrite (main_idle user_input w Hs). cbn [result world events].
  destruct (prelude_quiet (history w)) as [_ [H2 [H3 H4]]].
  repeat split; assumption.
Qed.

(** X2. Every run, whatever the input and however it ends, first sets
    the page up and shows each entry of the history once, in order, in a
    chat block of the entry's role, and then asks for input. *)
Theorem run_renders_history_first (user_input : option string) (w : World) :
  exists rest,
    events (main user_input w)
    = [StSetPageConfig "InsightsMania" "centered";
       StTitle "🎯 InsightsMania – Marketing Insights Generator"]
      ++ flat_map (fun m =>
           [StChatMessageEnter (role m); StMarkdown (content m);
            StChatMessageExit (role m)]) (history w)
      ++ StChatInput "Ask your marketing question here..." :: rest.
Proof.
  by_input user_input w; unfold turn_events, prelude_events, render_events;
    rewrite <- ?app_assoc; cbn [app]; eexists;
    repeat (f_equal; try reflexivity).
Qed.

(** X3. The history only grows: a run keeps every earlier entry in its
    place and adds at most two, and the key ["messages"] is set when the
    run ends, also when it ends by an exception. *)
Theorem history_is_append_only (user_input : option string) (w : World) :
  exists added,
    session_messages (world (main user_input w)) = Some (history w ++ added)
    /\ length added <= 2.
Proof.
  by_input user_input w; unfold idle_world, after; cbn [session_messages];
    try (eexists; split; [reflexivity | cbn; lia]).
  exists []. rewrite app_nil_r. split; [reflexivity | cbn; lia].
Qed.

(** X4. The only exceptions that leave [main] are those of the two
    collaborators: the driver's and the model's.  No run reads an unbound
    name or a missing session key. *)
Theorem only_collaborator_errors_escape (user_input : option string)
  (w : World) (e : Exn) :
  result (main user_input w) = Raise e ->
  (exists msg, e = DatabaseError msg) \/ (exists msg, e = GenerationError msg).
Proof.
  by_input user_input w; intros Hr; inversion Hr; subst; eauto.
Qed.

Lemma connects_app (a b : list Event) :
  connects (a ++ b) = connects a + connects b.
Proof. unfold connects. now rewrite filter_app, length_app. Qed.

Lemma closes_app (a b : list Event) :
  closes (a ++ b) = closes a + closes b.
Proof. unfold closes. now rewrite filter_app, length_app. Qed.

Lemma opened_files_app (a b : list Event) :
  opened_files (a ++ b) = opened_files a ++ opened_files b.
Proof. apply flat_map_app. Qed.

Lemma prelude_opens_nothing (ms : list Message) :
  connects (prelude_events ms) = 0 /\ closes (prelude_events ms) = 0
  /\ opened_files (prelude_events ms) = [].
Proof.
  unfold prelude_events.
  rewrite !connects_app, !closes_app, !opened_files_app.
  assert (Hr : connects (render_events ms) = 0 /\ closes (render_events ms) = 0
               /\ opened_files (render_events ms) = []).
  { induction ms as [| m rest IH]; cbn; auto. }
  destruct Hr as [-> [-> ->]]. cbn. auto.
Qed.

Lemma turn_opens (ms : list Message) (q : string) (inner : list Event) :
  connects (turn_events ms q inner) = connects inner
  /\ closes (turn_events ms q inner) = closes inner
  /\ opened_files (turn_events ms q inner) = opened_files inner.
Proof.
  destruct (prelude_opens_nothing ms) as [H1 [H2 H3]]. unfold turn_events.
  rewrite !connects_app, !closes_app, !opened_files_app, H1, H2, H3.
  change (StChatMessageEnter "assistant" :: inner ++ [StChatMessageExit "assistant"])
    with ([StChatMessageEnter "assistant"] ++ inner ++ [StChatMessageExit "assistant"]).
  rewrite !connects_app, !closes_app, !opened_files_app. cbn.
  rewrite app_nil_r. repeat split; lia.
Qed.

(** X5. A run calls [sqlite3.connect] at most once, and only on
    [customer.db]; it opens at most one connection, executes at most one
    statement and calls the model at most twice. *)
Theorem run_call_bounds (user_input : option string) (w : World) :
  length (opened_files (events (main user_input w))) <= 1
  /\ (forall f, In f (opened_files (events (main user_input w))) ->
              f = "customer.db")
  /\ connects (events (main user_input w)) <= 1
  /\ length (executed_sql (events (main user_input w))) <= 1
  /\ length (model_calls (events (main user_input w))) <= 2.
Proof.
  destruct (main_cases user_input w) as [[Hi Hm] | [u [-> Hu]]].
  - rewrite Hm. cbn [events].
    destruct (prelude_quiet (history w)) as [-> [-> _]].
    destruct (prelude_opens_nothing (history w)) as [-> [_ ->]].
    cbn. repeat split; try lia; intros f [].
  - pose proof (main_paths u w Hu) as P.
    destruct P; cbn [events];
      match goal with
      | |- context [turn_events ?ms ?q ?inner] =>
          destruct (turn_opens ms q inner) as [-> [_ ->]];
          destruct (turn_quiet ms q inner) as [-> [-> _]]
      end; cbn; repeat split; try lia;
      intros f Hf; repeat (destruct Hf as [Hf | Hf]; [now subst |]);
      destruct Hf.
Qed.

(** X6. The store changes only through an executed statement and the
    model only through a call to it: a run that executes no statement
    leaves the store as it was, and a run that makes no model call leaves
    the model as it was. *)
Theorem run_frame (user_input : option string) (w : World) :
  (executed_sql (events (main user_input w)) = [] ->
   datastore (world (main user_input w)) = datastore w)
  /\ (model_calls (events (main user_input w)) = [] ->
      model (world (main user_input w)) = model w).
Proof.
  by_input user_input w; split; intros Hnone; try reflexivity;
    cbn in Hnone; discriminate.
Qed.

(** ** The shape of the history *)

Lemma follows_user_grows (after_user : bool) (ms : list Message) (q : string) :
  follows_user after_user ms = true ->
  follows_user after_user (ms ++ [user_says q]) = true
  /\ forall c, follows_user after_user
                 (ms ++ [user_says q; assistant_says c]) = true.
Proof.
  revert after_user. induction ms as [| m rest IH]; intros after_user H.
  - split; reflexivity.
  - cbn [app follows_user] in *.
    destruct (String.eqb (role m) "assistant").
    + apply andb_true_iff in H. destruct H as [-> H].
      destruct (IH false H) as [I1 I2]. split.
      * now rewrite I1.
      * intros c. now rewrite I2.
    + apply (IH _ H).
Qed.

(** X7. When every assistant entry of the history comes directly after a
    user entry, this is still so after a run, whatever the input and
    however the run ends: an answer is stored only behind the question it
    answers. *)
Theorem history_stays_paired (user_input : option string) (w : World) :
  paired (history w) = true ->
  paired (history (world (main user_input w))) = true.
Proof.
  intros Hp. unfold paired in *.
  by_input user_input w; try exact Hp; rewrite history_after;
    match goal with
    | |- follows_user _ (_ ++ [user_says ?q]) = _ =>
        apply (proj1 (follows_user_grows false (history w) q Hp))
    | |- follows_user _ (_ ++ [user_says ?q; assistant_says ?c]) = _ =>
        apply (proj2 (follows_user_grows false (history w) q Hp))
    end.
Qed.

(** ** Failures of the model *)

Lemma generated_fails (q : string) (w : World) (e : Exn) :
  result (generated q w) = Raise e ->
  exists l msg, e = GenerationError msg
    /\ generate_content (model w) [sql_prompt q; q] = (l, LlmRaises msg).
Proof.
  rewrite generated_run.
  destruct (generate_content (model w) [sql_prompt q; q]) as [l [t | msg]];
    cbn; intros H; inversion H; subst. exists l, msg. split; reflexivity.
Qed.

(** X8. When the model call of the Query Generator raises, the exception
    leaves [main] as it is.  The question is already in the history;
    nothing has been asked of the driver, the store is as it was, and no
    error, warning or success message is shown. *)
Theorem generator_failure_aborts_turn (q : string) (w : World) (e : Exn) :
  str_truthy q = true ->
  result (generated q w) = Raise e ->
  result (main (Some q) w) = Raise e
  /\ db_events (events (main (Some q) w)) = []
  /\ notices (events (main (Some q) w)) = []
  /\ model_calls (events (main (Some q) w)) = [[sql_prompt q; q]]
  /\ history (world (main (Some q) w)) = history w ++ [user_says q]
  /\ datastore (world (main (Some q) w)) = datastore w.
Proof.
  intros Ht Hg. destruct (generated_fails q w e Hg) as [l [msg [-> Hl]]].
  by_path q w Ht. repeat split.
Qed.

(** X9. When the statement returned rows and the model call of the
    Insight Generator raises, the exception leaves [main] as it is.  By
    then the connection has been closed and the rows have been shown; no
    success message is shown and no assistant entry is stored. *)
Theorem insight_failure_aborts_turn (q : string) (w : World) (text : string)
  (row : Row) (rows : list Row) (e : Exn) :
  str_truthy q = true ->
  result (generated q w) = Ok text ->
  is_sentinel text = false ->
  result (executed q w text) = Ok (row :: rows) ->
  result (generate_insights q text (row :: rows) (world (executed q w text)))
  = Raise e ->
  result (main (Some q) w) = Raise e
  /\ (exists msg, e = GenerationError msg)
  /\ notices (events (main (Some q) w)) = []
  /\ db_events (events (main (Some q) w)) = driver_events text ++ [SqliteClose]
  /\ In (StDataframe (row :: rows)) (events (main (Some q) w))
  /\ history (world (main (Some q) w)) = history w ++ [user_says q].
Proof.
  intros Ht Hg Hs Hr Hi.
  destruct (generated_text q w _ Hg) as [l [Hl Hw]].
  destruct (executed_rows q w text _ Hg Hr) as [s [Hc [He _]]].
  revert Hi. unfold executed. rewrite Hw, get_sql_results_run. unfold after.
  cbn [datastore model session_messages]. rewrite Hc, He.
  cbn [fault fetched world]. unfold generate_insights, model_generate_content.
  cbn [datastore model session_messages].
  by_path q w Ht;
    match goal with
    | H : generate_content _ [insight_prompt _ _ _] = _ |- _ => rewrite H
    end; cbn [result]; intros Hi; inversion Hi; subst.
  repeat split; eauto.
  unfold turn_events. apply in_or_app. right. apply in_or_app. right.
  right. apply in_or_app. left. cbn. auto 12.
Qed.

(** X10. A run leaves a connection open exactly when it ends by the
    driver's exception after a statement was handed to [cursor.execute]:
    the connections opened are then one more than those closed, and as
    many in every other run.  When [sqlite3.connect] itself raises, no
    connection was opened and none is left open. *)
Theorem connection_left_open_on_database_error (user_input : option string)
  (w : World) :
  connects (events (main user_input w))
  = closes (events (main user_input w))
    + match result (main user_input w),
            executed_sql (events (main user_input w)) with
      | Raise (DatabaseError _), _ :: _ => 1
      | _, _ => 0
      end.
Proof.
  destruct (main_cases user_input w) as [[Hi Hm] | [u [-> Hu]]].
  - rewrite Hm. cbn [events result].
    destruct (prelude_opens_nothing (history w)) as [-> [-> _]]. reflexivity.
  - pose proof (main_paths u w Hu) as P.
    destruct P; cbn [events result];
      match goal with
      | |- context [turn_events ?ms ?q ?inner] =>
          destruct (turn_opens ms q inner) as [-> [-> _]];
          try rewrite (proj1 (turn_quiet ms q inner))
      end; reflexivity.
Qed.

(** ** The three functions on their own *)

Lemma sql_prompt_carries :
  exists a b : string, forall query,
    sql_prompt query = (a ++ dq ++ query ++ dq ++ b)%string.
Proof.
  exists (nl ++ unlines sql_prompt_head ++ "    ")%string.
  exists (nl ++ nl ++ "💡  SQL Insight Output (only the SQL query):" ++ nl ++ "    ")%string.
  intros q. unfold sql_prompt.
  generalize (unlines sql_prompt_head). intros h.
  rewrite !string_app_assoc. reflexivity.
Qed.

(** X11. [get_sql_query] calls the model once, with two contents: the
    prompt, in which the question stands as it is between double quotes,
    and the question again.  It returns the text of the model as it is,
    without trimming, or raises when the model does, and touches neither
    the store nor the history. *)
Theorem get_sql_query_asks_once (query : string) (w : World) :
  events (get_sql_query query w) = [GenerateContent [sql_prompt query; query]]
  /\ (forall text, result (get_sql_query query w) = Ok text
        <-> snd (generate_content (model w) [sql_prompt query; query])
            = LlmText text)
  /\ (forall e, result (get_sql_query query w) = Raise e
        <-> exists msg, e = GenerationError msg
            /\ snd (generate_content (model w) [sql_prompt query; query])
               = LlmRaises msg)
  /\ datastore (world (get_sql_query query w)) = datastore w
  /\ session_messages (world (get_sql_query query w)) = session_messages w
  /\ (exists a b : string, forall question,
        sql_prompt question = (a ++ dq ++ question ++ dq ++ b)%string).
Proof.
  unfold get_sql_query, model_generate_content.
  destruct (generate_content (model w) [sql_prompt query; query])
    as [l [t | msg]]; cbn [events result world datastore session_messages snd].
  - repeat split; try reflexivity; try apply sql_prompt_carries.
    + intros H; inversion H; reflexivity.
    + intros H; inversion H; reflexivity.
    + intros H; inversion H.
    + intros [m [_ H]]; inversion H.
  - repeat split; try reflexivity; try apply sql_prompt_carries.
    + intros H; inversion H.
    + intros H; inversion H.
    + intros H; inversion H; subst. eauto.
    + intros [m [-> H]]; inversion H; reflexivity.
Qed.

(** X12. [get_sql_results] deals with the driver only: it calls
    [sqlite3.connect] once, on [customer.db], whatever the text, calls no
    model, shows nothing, and leaves the model and the history as they
    were. *)
Theorem get_sql_results_touches_only_the_driver (query : string) (w : World) :
  opened_files (events (get_sql_results query w)) = ["customer.db"]
  /\ db_events (events (get_sql_results query w))
     = events (get_sql_results query w)
  /\ model_calls (events (get_sql_results query w)) = []
  /\ notices (events (get_sql_results query w)) = []
  /\ model (world (get_sql_results query w)) = model w
  /\ session_messages (world (get_sql_results query w)) = session_messages w.
Proof.
  rewrite get_sql_results_run.
  destruct (sqlite_connect (datastore w) "customer.db") as [m |];
    [cbn; repeat split |].
  destruct (sqlite_execute (datastore w) query) as [s [msg | [rs [msg |]]]];
    cbn; repeat split.
Qed.

(** ** Order within a turn *)

Lemma connection_open_app (was : bool) (a b : list Event) :
  connection_open was (a ++ b) = connection_open (connection_open was a) b.
Proof.
  revert was. induction a as [| e a IH]; intros was; [reflexivity |].
  destruct e; cbn; apply IH.
Qed.

Lemma render_keeps_connection (was : bool) (ms : list Message) :
  connection_open was (render_events ms) = was.
Proof. induction ms as [| m rest IH]; cbn; auto. Qed.

(** The events of a turn up to the call of [cursor.execute]. *)
Lemma turn_until_execute (ms : list Message) (q text : string)
  (rest : list Event) :
  turn_events ms q (sql_shown q text ++ driver_events text ++ rest)
  = (prelude_events ms
     ++ [StChatMessageEnter "user"; StMarkdown q; StChatMessageExit "user";
         StChatMessageEnter "assistant"]
     ++ sql_shown q text ++ [SqliteConnect "customer.db"; SqliteCursor])
    ++ SqliteExecute text :: rest ++ [StChatMessageExit "assistant"].
Proof.
  unfold turn_events, sql_shown, driver_events. cbn [app].
  rewrite <- !app_assoc. reflexivity.
Qed.

(** X13. A statement is shown before it is run: whenever a text is handed
    to [cursor.execute] in a turn, [st.code] has displayed that very text
    earlier in the turn, so the user has seen it also when the statement
    then raises. *)
Theorem sql_is_shown_before_it_runs (q : string) (w : World) (text : string) :
  str_truthy q = true ->
  In text (executed_sql (events (main (Some q) w))) ->
  exists before rest,
    events (main (Some q) w) = before ++ SqliteExecute text :: rest
    /\ In (StCode text "sql") before
    /\ executed_sql before = [].
Proof.
  intros Ht. pose proof (main_paths q w Ht) as P.
  destruct P; cbn [events];
    match goal with
    | |- context [turn_events ?ms ?u ?inner] =>
        destruct (turn_quiet ms u inner) as [Q1 _]; rewrite Q1 at 1; clear Q1
    end; intros Hin; cbn in Hin; try contradiction;
    destruct Hin as [<- | []];
    match goal with
    | |- context [sql_shown ?u ?t ++ driver_events ?t ++ ?r] =>
        rewrite (turn_until_execute (history w) u t r)
    | |- context [sql_shown ?u ?t ++ driver_events ?t] =>
        rewrite <- (app_nil_r (driver_events t));
        rewrite (turn_until_execute (history w) u t [])
    end;
    eexists; eexists; (split; [reflexivity | split]);
    try (apply in_or_app; right; apply in_or_app; right; cbn; now auto 8);
    destruct (prelude_quiet (history w)) as [E _];
    rewrite !executed_sql_app, E; reflexivity.
Qed.

(** X14. The connection is not held while the model writes the insight:
    when the Insight Generator is called, the connection opened for the
    statement has been closed. *)
Theorem connection_closed_before_insight (q : string) (w : World)
  (text : string) (row : Row) (rows : list Row) :
  str_truthy q = true ->
  result (generated q w) = Ok text ->
  is_sentinel text = false ->
  result (executed q w text) = Ok (row :: rows) ->
  exists before rest,
    events (main (Some q) w)
    = before ++ GenerateContent [insight_prompt q text (row :: rows)] :: rest
    /\ connects before = 1 /\ closes before = 1
    /\ connection_open false before = false.
Proof.
  intros Ht Hg Hs Hr.
  destruct (generated_text q w _ Hg) as [l [Hl _]].
  destruct (executed_rows q w text _ Hg Hr) as [s [Hc [He _]]].
  pose proof (main_paths q w Ht) as P.
  destruct P; same_answer; try discriminate; cbn [events];
    rewrite turn_until_execute;
    match goal with
    | |- context [?pre ++ SqliteExecute ?t :: (?a :: ?b :: ?c :: ?g :: ?r) ++ ?x] =>
        exists (pre ++ [SqliteExecute t; a; b; c]), (r ++ x)
    end;
    (split; [rewrite <- !app_assoc; reflexivity |]);
    destruct (prelude_opens_nothing (history w)) as [E1 [E2 _]];
    rewrite !connects_app, !closes_app, !connection_open_app, E1, E2;
    unfold prelude_events;
    rewrite !connection_open_app, render_keeps_connection;
    repeat split.
Qed.

(** ** Text around a sentinel *)

Lemma string_length_app (a b : string) :
  String.length (a ++ b) = String.length a + String.length b.
Proof. induction a as [| x a IH]; cbn; [reflexivity | now rewrite IH]. Qed.

Lemma no_results_not_inside_invalid (before behind : string) :
  (before ++ "NO RESULTS" ++ behind)%string <> "INVALID QUERY".
Proof.
  destruct before as [| a [| b [| c [| d before]]]]; cbn; try discriminate.
  intros H. apply (f_equal String.length) in H. cbn in H.
  rewrite string_length_app in H. cbn in H. lia.
Qed.

(** X15. The two strings are recognised only when they are the whole
    answer.  An answer that has one of them with anything before or
    behind it (a newline, a quote, a full stop) is taken for a statement:
    the Query Executor is called on it as it is, and it is the one
    statement handed to [cursor.execute] whenever [sqlite3.connect]
    returns a connection. *)
Theorem padded_sentinel_is_run (q : string) (w : World)
  (before sentinel behind : string) :
  str_truthy q = true ->
  sentinel = "INVALID QUERY" \/ sentinel = "NO RESULTS" ->
  (before ++ sentinel ++ behind)%string <> sentinel ->
  result (generated q w) = Ok (before ++ sentinel ++ behind)%string ->
  executed_sql (events (main (Some q) w))
  = match sqlite_connect (datastore w) "customer.db" with
    | None => [(before ++ sentinel ++ behind)%string]
    | Some _ => []
    end
  /\ db_events (events (main (Some q) w))
     = events (executed q w (before ++ sentinel ++ behind)%string)
  /\ notices (events (main (Some q) w))
     <> [NoticeError "Invalid SQL query. Please try again."]
  /\ notices (events (main (Some q) w))
     <> [NoticeWarning "No results found for this query."].
Proof.
  intros Ht Hs Hne Hg.
  assert (Hn : is_sentinel (before ++ sentinel ++ behind) = false).
  { destruct Hs as [-> | ->]; apply not_sentinel; try exact Hne.
    - intros H. apply (f_equal String.length) in H.
      rewrite !string_length_app in H. cbn in H. lia.
    - apply no_results_not_inside_invalid. }
  destruct (generated_text q w _ Hg) as [l [Hl Hw]].
  unfold executed. rewrite Hw, get_sql_results_run. unfold after.
  cbn [datastore model session_messages].
  by_path q w Ht;
    try match goal with
    | H : (before ++ sentinel ++ behind)%string = _ |- _ =>
        rewrite H in Hn; discriminate
    end;
    repeat match goal with
    | H : sqlite_connect _ _ = _ |- _ => rewrite H; clear H
    | H : sqlite_execute _ _ = _ |- _ => rewrite H; clear H
    end; cbn; repeat split; discriminate.
Qed.

(** ** Chat blocks *)

Lemma chat_stack_app (stack : list string) (a b : list Event) :
  chat_stack stack (a ++ b)
  = match chat_stack stack a with
    | Some stack' => chat_stack stack' b
    | None => None
    end.
Proof.
  revert stack. induction a as [| e a IH]; intros stack; [reflexivity |].
  destruct e; cbn [app chat_stack]; try apply IH.
  destruct stack as [| top below]; [reflexivity |].
  destruct (String.eqb top name); [apply IH | reflexivity].
Qed.

Lemma chat_stack_render (stack : list string) (ms : list Message) :
  chat_stack stack (render_events ms) = Some stack.
Proof.
  induction ms as [| m rest IH]; [reflexivity |].
  cbn [render_events flat_map app chat_stack]. rewrite String.eqb_refl.
  exact IH.
Qed.

Lemma chat_stack_prelude (ms : list Message) :
  chat_stack [] (prelude_events ms) = Some [].
Proof.
  unfold prelude_events. cbn [app chat_stack].
  rewrite chat_stack_app, chat_stack_render. reflexivity.
Qed.

(** X16. Every chat block a run opens is closed again, innermost first,
    before the run ends, also when the run ends by an exception inside
    the assistant block. *)
Theorem chat_blocks_are_closed (user_input : option string) (w : World) :
  chat_stack [] (events (main user_input w)) = Some [].
Proof.
  destruct (main_cases user_input w) as [[Hi Hm] | [u [-> Hu]]].
  - rewrite Hm. apply chat_stack_prelude.
  - pose proof (main_paths u w Hu) as P.
    destruct P; cbn [events]; unfold turn_events;
      rewrite chat_stack_app, chat_stack_prelude;
      unfold sql_shown, driver_events;
      cbn [app chat_stack]; rewrite ?String.eqb_refl;
      cbn [app chat_stack]; rewrite ?String.eqb_refl; reflexivity.
Qed.

(** ** From one run to the next *)

Lemma main_prelude (user_input : option string) (w : World) :
  exists rest,
    events (main user_input w) = prelude_events (history w) ++ rest.
Proof.
  destruct (main_cases user_input w) as [[Hi Hm] | [u [-> Hu]]].
  - rewrite Hm. exists []. cbn [events]. now rewrite app_nil_r.
  - pose proof (main_paths u w Hu) as P.
    destruct P; cbn [events]; unfold turn_events; eexists; reflexivity.
Qed.

(** X17. The insight a turn shows with [st.success] is the text it stores
    as the assistant entry, and the next run, whatever its input, shows
    the question and that insight again, as plain markdown in their chat
    blocks, behind the older entries. *)
Theorem shown_insight_is_stored_and_rendered (q : string) (w : World)
  (insight : string) (next : option string) :
  str_truthy q = true ->
  notices (events (main (Some q) w)) = [NoticeSuccess insight] ->
  history (world (main (Some q) w))
  = history w ++ [user_says q; assistant_says insight]
  /\ exists rest,
       events (main next (world (main (Some q) w)))
       = [StSetPageConfig "InsightsMania" "centered";
          StTitle "🎯 InsightsMania – Marketing Insights Generator"]
         ++ render_events (history w)
         ++ [StChatMessageEnter "user"; StMarkdown q;
             StChatMessageExit "user";
             StChatMessageEnter "assistant"; StMarkdown insight;
             StChatMessageExit "assistant";
             StChatInput "Ask your marketing question here..."]
         ++ rest.
Proof.
  intros Ht Hn.
  assert (Hh : history (world (main (Some q) w))
               = history w ++ [user_says q; assistant_says insight]).
  { revert Hn. by_path q w Ht; intros Hn; cbn in Hn; try discriminate.
    inversion Hn; subst. reflexivity. }
  split; [exact Hh |].
  destruct (main_prelude next (world (main (Some q) w))) as [rest Hr].
  exists rest. rewrite Hr, Hh. unfold prelude_events, render_events.
  rewrite flat_map_app. cbn [flat_map app role content user_says assistant_says].
  rewrite <- !app_assoc. reflexivity.
Qed.

(** X18. [generate_insights] calls the model once, with the prompt as the
    only content; it returns the text of the model as it is or raises
    when the model does, and touches neither the store nor the history. *)
Theorem generate_insights_asks_once (user_query sql_query : string)
  (results : list Row) (w : World) :
  events (generate_insights user_query sql_query results w)
  = [GenerateContent [insight_prompt user_query sql_query results]]
  /\ (forall text,
        result (generate_insights user_query sql_query results w) = Ok text
        <-> snd (generate_content (model w)
                   [insight_prompt user_query sql_query results])
            = LlmText text)
  /\ (forall e,
        result (generate_insights user_query sql_query results w) = Raise e
        <-> exists msg, e = GenerationError msg
            /\ snd (generate_content (model w)
                      [insight_prompt user_query sql_query results])
               = LlmRaises msg)
  /\ datastore (world (generate_insights user_query sql_query results w))
     = datastore w
  /\ session_messages (world (generate_insights user_query sql_query results w))
     = session_messages w.
Proof.
  unfold generate_insights, model_generate_content.
  destruct (generate_content (model w)
              [insight_prompt user_query sql_query results])
    as [l [t | msg]]; cbn [events result world datastore session_messages snd].
  - repeat split; try reflexivity.
    + intros H; inversion H; reflexivity.
    + intros H; inversion H; reflexivity.
    + intros H; inversion H.
    + intros [m [_ H]]; inversion H.
  - repeat split; try reflexivity.
    + intros H; inversion H.
    + intros H; inversion H.
    + intros H; inversion H; subst. eauto.
    + intros [m [-> H]]; inversion H; reflexivity.
Qed.

(** X19. In every turn the question is stored and echoed in the user
    block first, and the first collaborator called is the model, once,
    by the Query Generator, with the question as it was submitted. *)
Theorem question_is_echoed_before_generation (q : string) (w : World) :
  str_truthy q = true ->
  exists rest,
    events (main (Some q) w)
    = prelude_events (history w)
      ++ [StChatMessageEnter "user"; StMarkdown q; StChatMessageExit "user";
          StChatMessageEnter "assistant";
          GenerateContent [sql_prompt q; q]]
      ++ rest
    /\ exists added,
         history (world (main (Some q) w)) = history w ++ user_says q :: added.
Proof.
  intros Ht. pose proof (main_paths q w Ht) as P.
  destruct P; cbn [events world]; rewrite history_after;
    unfold turn_events, sql_shown; cbn [app];
    eexists; (split; [reflexivity | eexists; reflexivity]).
Qed.

End Properties.

(** * Runs on the test doubles *)

Module Runs.

Import Double.

(** Scenario A of the specification. *)
Example scenario_insight :
  let o := main (Some question)
             (fresh [LlmText select_all; LlmText "Scale Meta."]) in
  result o = Ok tt
  /\ notices (events o) = [NoticeSuccess "Scale Meta."]
  /\ executed_sql (events o) = [select_all]
  /\ history (world o) = [user_says question; assistant_says "Scale Meta."].
Proof. vm_compute. repeat split. Qed.

(** A statement that changes the store is run like any other. *)
Example drop_table_runs :
  let o := get_sql_results drop_table (fresh []) in
  result o = Ok [] /\ customer (datastore (world o)) = None
  /\ executed_sql (events o) = [drop_table].
Proof. vm_compute. repeat split. Qed.

(** Nothing is submitted: the script renders and stops. *)
Example no_input_no_turn :
  let o := main None (fresh []) in
  result o = Ok tt /\ history (world o) = [] /\ model_calls (events o) = [].
Proof. vm_compute. repeat split. Qed.

End Runs.

(** * The claims at concrete inputs *)

Import Double.

Lemma sentinel_skips_executor_witness :
  str_truthy question = true
  /\ (result (main (Some question) (fresh [LlmText "INVALID QUERY"])) = Ok tt
      /\ notices (events (main (Some question) (fresh [LlmText "INVALID QUERY"])))
         = [NoticeError "Invalid SQL query. Please try again."]
      /\ db_events (events (main (Some question) (fresh [LlmText "INVALID QUERY"])))
         = [])
  /\ (result (main (Some question) (fresh [LlmText "NO RESULTS"])) = Ok tt
      /\ notices (events (main (Some question) (fresh [LlmText "NO RESULTS"])))
         = [NoticeWarning "No results found for this query."]
      /\ db_events (events (main (Some question) (fresh [LlmText "NO RESULTS"])))
         = []).
Proof.
  split; [reflexivity | split].
  - apply (proj1 (sentinel_skips_executor question
                    (fresh [LlmText "INVALID QUERY"]) eq_refl)).
    reflexivity.
  - apply (proj1 (proj2 (sentinel_skips_executor question
                           (fresh [LlmText "NO RESULTS"]) eq_refl))).
    reflexivity.
Defined.

(** The comparison is exact: a trailing newline makes the text a
    statement, and it is run. *)
Example sentinel_with_newline_is_run :
  executed_sql (events (main (Some question)
                          (fresh [LlmText ("INVALID QUERY" ++ nl)%string])))
  = [("INVALID QUERY" ++ nl)%string].
Proof. vm_compute. reflexivity. Qed.

Lemma sql_text_passed_unmodified_witness :
  executed_sql (events (main (Some question)
                          (fresh [LlmText select_all; LlmText "Scale Meta."])))
  = [select_all]
  /\ db_events (events (main (Some question)
                          (fresh [LlmText select_all; LlmText "Scale Meta."])))
     = events (executed question
                 (fresh [LlmText select_all; LlmText "Scale Meta."])
                 select_all).
Proof.
  apply (sql_text_passed_unmodified question
           (fresh [LlmText select_all; LlmText "Scale Meta."]) select_all).
  - reflexivity.
  - reflexivity.
  - vm_compute. discriminate.
  - vm_compute. discriminate.
Defined.

Lemma empty_result_skips_insight_witness :
  result (main (Some question) (fresh [LlmText select_none])) = Ok tt
  /\ notices (events (main (Some question) (fresh [LlmText select_none])))
     = [NoticeWarning "No data returned for this query."]
  /\ model_calls (events (main (Some question) (fresh [LlmText select_none])))
     = [[sql_prompt question; question]].
Proof.
  apply (empty_result_skips_insight question (fresh [LlmText select_none])
           select_none).
  - reflexivity.
  - reflexivity.
  - vm_compute. discriminate.
  - vm_compute. discriminate.
  - reflexivity.
Defined.

Lemma insight_generator_called_once_witness :
  model_calls (events (main (Some question)
                         (fresh [LlmText select_all; LlmText "Scale Meta."])))
  = [[sql_prompt question; question];
     [insight_prompt question select_all [meta_row; google_row]]].
Proof.
  apply (insight_generator_called_once question
           (fresh [LlmText select_all; LlmText "Scale Meta."])
           select_all meta_row [google_row]).
  - reflexivity.
  - reflexivity.
  - vm_compute. discriminate.
  - vm_compute. discriminate.
  - reflexivity.
Defined.

Lemma empty_branch_reads_no_unbound_name_witness :
  result (main (Some question) (fresh [LlmText select_none])) = Ok tt.
Proof.
  apply (empty_branch_reads_no_unbound_name question
           (fresh [LlmText select_none]) select_none).
  - reflexivity.
  - reflexivity.
  - vm_compute. discriminate.
  - vm_compute. discriminate.
  - reflexivity.
Defined.

Lemma history_after_turn_witness :
  history (world (main (Some "And CTR?")
                    (world (main (Some question)
                              (fresh [LlmText "INVALID QUERY";
                                      LlmText "NO RESULTS"])))))
  = [user_says question; user_says "And CTR?"].
Proof.
  apply (proj2 (proj2 (proj2 (proj2 (proj2 (proj2
           (history_after_turn question
              (fresh [LlmText "INVALID QUERY"; LlmText "NO RESULTS"])
              eq_refl)))))) "And CTR?" "INVALID QUERY" "NO RESULTS");
    reflexivity.
Defined.

Lemma database_error_leaves_main_witness :
  result (main (Some question) (fresh [LlmText bad_column]))
  = Raise (DatabaseError "no such column: colour")
  /\ notices (events (main (Some question) (fresh [LlmText bad_column]))) = [].
Proof.
  destruct (proj1 (database_error_leaves_main question
                     (fresh [LlmText bad_column]) eq_refl)
              bad_column (DatabaseError "no such column: colour")
              eq_refl eq_refl eq_refl) as [Hr [_ [Hn _]]].
  split; [exact Hr | exact Hn].
Defined.

Lemma executor_closes_on_success_witness :
  result (get_sql_results select_all (fresh [])) = Ok [meta_row; google_row]
  /\ events (get_sql_results select_all (fresh []))
     = driver_events select_all ++ [SqliteClose]
  /\ connection_open false (events (get_sql_results select_all (fresh [])))
     = false
  /\ result (get_sql_results select_all (locked []))
     = Raise (DatabaseError "unable to open database file").
Proof.
  destruct (proj2 (proj2 (proj1 (proj2
              (executor_closes_on_success select_all (fresh []))) eq_refl))
              table [meta_row; google_row] eq_refl) as [Hr [He [Hc _]]].
  destruct (proj1 (executor_closes_on_success select_all (locked []))
              "unable to open database file" eq_refl) as [Hl _].
  repeat split; assumption.
Defined.


Lemma executor_runs_any_statement_witness :
  executed_sql (events (get_sql_results drop_table (fresh []))) = [drop_table]
  /\ customer (datastore (world (get_sql_results drop_table (fresh [])))) = None.
Proof.
  destruct (executor_runs_any_statement drop_table (fresh []))
    as [He [_ [Hs _]]].
  split; [exact He | rewrite Hs; reflexivity].
Defined.

(** C2 as stated fails: the statement raises and the connection that was
    opened for it is never closed. *)
Lemma executor_leaves_connection_open :
  result (get_sql_results bad_column (fresh []))
  = Raise (DatabaseError "no such column: colour")
  /\ events (get_sql_results bad_column (fresh []))
     = [SqliteConnect "customer.db"; SqliteCursor; SqliteExecute bad_column]
  /\ ~ In SqliteClose (events (get_sql_results bad_column (fresh [])))
  /\ connection_open false (events (get_sql_results bad_column (fresh [])))
     = true.
Proof.
  repeat split.
  vm_compute. intros [H | [H | [H | []]]]; discriminate.
Qed.

(** C3 as stated fails: the driver's error is what leaves [main], and the
    turn has shown no error, warning or success message. *)
Lemma database_error_shows_no_message :
  result (main (Some question) (fresh [LlmText bad_column]))
  = Raise (DatabaseError "no such column: colour")
  /\ notices (events (main (Some question) (fresh [LlmText bad_column]))) = []
  /\ ~ (exists n, notices (events (main (Some question)
                                     (fresh [LlmText bad_column]))) = [n]).
Proof.
  repeat split.
  intros [n H]. vm_compute in H. discriminate.
Qed.


(** C8 as stated fails: the file cannot be opened, and the text the
    Executor received is not executed. *)
Lemma executor_runs_nothing_when_locked :
  result (get_sql_results select_all (locked []))
  = Raise (DatabaseError "unable to open database file")
  /\ executed_sql (events (get_sql_results select_all (locked []))) = []
  /\ events (get_sql_results select_all (locked []))
     = [SqliteConnectFailed "customer.db"].
Proof. repeat split. Qed.

(** * Further properties at concrete inputs *)

Lemma idle_run_only_renders_witness :
  submitted (Some "") = false
  /\ result (main (Some "") (fresh [LlmText select_all])) = Ok tt
  /\ model_calls (events (main (Some "") (fresh [LlmText select_all]))) = [].
Proof.
  split; [reflexivity |].
  destruct (idle_run_only_renders (Some "") (fresh [LlmText select_all])
              eq_refl) as [Hr [_ [Hm _]]].
  split; [exact Hr | exact Hm].
Defined.

Lemma only_collaborator_errors_escape_witness :
  result (main (Some question) (fresh [LlmText bad_column]))
  = Raise (DatabaseError "no such column: colour")
  /\ ((exists msg, DatabaseError "no such column: colour" = DatabaseError msg)
      \/ (exists msg,
            DatabaseError "no such column: colour" = GenerationError msg)).
Proof.
  split; [reflexivity |].
  apply (only_collaborator_errors_escape (Some question)
           (fresh [LlmText bad_column])).
  reflexivity.
Defined.

Lemma run_frame_witness :
  datastore (world (main (Some question) (fresh [LlmText "NO RESULTS"])))
  = datastore (fresh [LlmText "NO RESULTS"]).
Proof.
  apply (proj1 (run_frame (Some question) (fresh [LlmText "NO RESULTS"]))).
  reflexivity.
Defined.

Lemma history_stays_paired_witness :
  paired (history (fresh [LlmText select_all; LlmText "Scale Meta."])) = true
  /\ paired (history (world (main (Some question)
                               (fresh [LlmText select_all;
                                       LlmText "Scale Meta."])))) = true.
Proof.
  split; [reflexivity |].
  apply (history_stays_paired (Some question)
           (fresh [LlmText select_all; LlmText "Scale Meta."])).
  reflexivity.
Defined.

Lemma generator_failure_aborts_turn_witness :
  result (main (Some question) (fresh []))
  = Raise (GenerationError "no candidates returned")
  /\ db_events (events (main (Some question) (fresh []))) = [].
Proof.
  destruct (generator_failure_aborts_turn question (fresh [])
              (GenerationError "no candidates returned") eq_refl eq_refl)
    as [Hr [Hd _]].
  split; [exact Hr | exact Hd].
Defined.

Lemma insight_failure_aborts_turn_witness :
  result (main (Some question) (fresh [LlmText select_all]))
  = Raise (GenerationError "no candidates returned")
  /\ notices (events (main (Some question) (fresh [LlmText select_all]))) = [].
Proof.
  destruct (insight_failure_aborts_turn question (fresh [LlmText select_all])
              select_all meta_row [google_row]
              (GenerationError "no candidates returned")
              eq_refl eq_refl eq_refl eq_refl eq_refl)
    as [Hr [_ [Hn _]]].
  split; [exact Hr | exact Hn].
Defined.

Lemma sql_is_shown_before_it_runs_witness :
  exists before rest,
    events (main (Some question) (fresh [LlmText bad_column]))
    = before ++ SqliteExecute bad_column :: rest
    /\ In (StCode bad_column "sql") before
    /\ executed_sql before = [].
Proof.
  apply (sql_is_shown_before_it_runs question (fresh [LlmText bad_column])
           bad_column).
  - reflexivity.
  - vm_compute. left. reflexivity.
Defined.

Lemma connection_closed_before_insight_witness :
  exists before rest,
    events (main (Some question)
              (fresh [LlmText select_all; LlmText "Scale Meta."]))
    = before
      ++ GenerateContent
           [insight_prompt question select_all [meta_row; google_row]]
      :: rest
    /\ connects before = 1 /\ closes before = 1
    /\ connection_open false before = false.
Proof.
  apply (connection_closed_before_insight question
           (fresh [LlmText select_all; LlmText "Scale Meta."])
           select_all meta_row [google_row]); reflexivity.
Defined.

Lemma padded_sentinel_is_run_witness :
  executed_sql (events (main (Some question)
                          (fresh [LlmText ("INVALID QUERY" ++ nl)%string])))
  = [("INVALID QUERY" ++ nl)%string].
Proof.
  destruct (padded_sentinel_is_run question
              (fresh [LlmText ("INVALID QUERY" ++ nl)%string])
              "" "INVALID QUERY" nl) as [H _].
  - reflexivity.
  - left. reflexivity.
  - vm_compute. discriminate.
  - reflexivity.
  - exact H.
Defined.

Lemma shown_insight_is_stored_and_rendered_witness :
  history (world (main (Some question)
                    (fresh [LlmText select_all; LlmText "Scale Meta."])))
  = [user_says question; assistant_says "Scale Meta."].
Proof.
  apply (shown_insight_is_stored_and_rendered question
           (fresh [LlmText select_all; LlmText "Scale Meta."])
           "Scale Meta." None); reflexivity.
Defined.

Lemma question_is_echoed_before_generation_witness :
  exists rest,
    events (main (Some question) (fresh [LlmText "NO RESULTS"]))
    = prelude_events (history (fresh [LlmText "NO RESULTS"]))
      ++ [StChatMessageEnter "user"; StMarkdown question;
          StChatMessageExit "user"; StChatMessageEnter "assistant";
          GenerateContent [sql_prompt question; question]]
      ++ rest
    /\ exists added,
         history (world (main (Some question) (fresh [LlmText "NO RESULTS"])))
         = history (fresh [LlmText "NO RESULTS"]) ++ user_says question :: added.
Proof.
  apply (question_is_echoed_before_generation question
           (fresh [LlmText "NO RESULTS"])).
  reflexivity.
Defined.
